(** * Number-guessing game client: response reading and game state

    A shallow embedding of [src/App.tsx]: the response reader [readBody],
    the classifier [toFeedback], the label table [labelFor] and the three
    handlers of the [App] component, [startGame], [resetGame] and
    [submitGuess], acting on the component's state cells.

    Conventions of the model.
    - A JavaScript string is a [string]; each character stands for one
      code unit below 256.
    - A JavaScript number is a binary64 value, [spec_float] with
      precision 53 and maximal exponent 1024.  The counter [tries] only
      ever holds 0 or a successor, so it is a natural number [N].
    - An [async] function is a computation over an explicit state that
      either returns or throws; [await] is sequencing.  In [step] and
      [run] one handler runs to completion before the next one starts;
      in [move] and [play] a guess gives way at its [await fetch(...)]
      and other handlers run before its reply arrives.
    - What the platform provides (the [Response] a [fetch] resolves to,
      [JSON.parse], [String.prototype.trim], [Number]) is modelled by its
      observable behaviour. *)

From Stdlib Require Import ZArith NArith List String Ascii Bool Lia.
From Stdlib Require Import SpecFloat DecimalString DecimalPos.
Import ListNotations.

Local Open Scope string_scope.
Local Open Scope bool_scope.

(** ** Strings *)

Module JsString.

(** The white space and line terminator code units below 256:
    TAB, LF, VT, FF, CR, SP and NBSP. *)
Definition isWhiteSpace (c : ascii) : bool :=
  let n := N_of_ascii c in
  ((n =? 9) || (n =? 10) || (n =? 11) || (n =? 12) || (n =? 13)
   || (n =? 32) || (n =? 160))%N.

Definition isEmpty (s : string) : bool :=
  match s with EmptyString => true | String _ _ => false end.

Fixpoint trimStart (s : string) : string :=
  match s with
  | EmptyString => EmptyString
  | String c s' => if isWhiteSpace c then trimStart s' else s
  end.

Fixpoint trimEnd (s : string) : string :=
  match s with
  | EmptyString => EmptyString
  | String c s' =>
      let t := trimEnd s' in
      if isWhiteSpace c && isEmpty t then EmptyString else String c t
  end.

(** [s.trim()] *)
Definition trim (s : string) : string := trimEnd (trimStart s).

(** [s.includes(pat)] *)
Fixpoint includes (pat s : string) : bool :=
  prefix pat s ||
  match s with
  | EmptyString => false
  | String _ s' => includes pat s'
  end.

(** The decimal digits of a natural number, as a template literal
    renders an integral number below 10^21. *)
Definition decimal (n : N) : string :=
  NilZero.string_of_uint (N.to_uint n).

(** The one-character string holding a double quote. *)
Definition dquote : string := String "034"%char EmptyString.

(** [s] between double quotes, as JSON writes a plain string. *)
Definition quoted (s : string) : string := dquote ++ s ++ dquote.

End JsString.

(** ** Numbers *)

Module JsNumber.

Definition number := spec_float.

Definition prec : Z := 53.
Definition emax : Z := 1024.

Definition NaN : number := S754_nan.
Definition zero : number := S754_zero false.

(** The number nearest to the rational [num / den] (ties to even),
    for [num >= 0] and [den > 0]. *)
Definition of_ratio (neg : bool) (num den : Z) : number :=
  match num, den with
  | Z0, _ => S754_zero neg
  | Zpos n, Zpos d =>
      SFdiv prec emax (S754_finite neg n 0) (S754_finite false d 0)
  | _, _ => S754_nan
  end.

Definition of_Z (z : Z) : number := of_ratio (z <? 0)%Z (Z.abs z) 1.

Definition ltb (x y : number) : bool := SFltb x y.

(** [Number.isInteger(n)] *)
Definition isInteger (n : number) : bool :=
  match n with
  | S754_zero _ => true
  | S754_finite _ m e =>
      match e with
      | Zneg p => (Z.modulo (Zpos m) (Z.pow 2 (Zpos p)) =? 0)%Z
      | _ => true
      end
  | S754_infinity _ | S754_nan => false
  end.

(** The integer an integral number denotes. *)
Definition to_Z (n : number) : Z :=
  match n with
  | S754_finite s m e =>
      let a := match e with
               | Zneg p => Z.div (Zpos m) (Z.pow 2 (Zpos p))
               | _ => Z.mul (Zpos m) (Z.pow 2 e)
               end in
      if s then Z.opp a else a
  | _ => 0%Z
  end.

(** *** [Number(s)]: the StringNumericLiteral grammar *)

Definition digit_value (c : ascii) : option Z :=
  let n := Z.of_N (N_of_ascii c) in
  if ((48 <=? n) && (n <=? 57))%Z then Some (n - 48)%Z
  else if ((97 <=? n) && (n <=? 102))%Z then Some (n - 87)%Z
  else if ((65 <=? n) && (n <=? 70))%Z then Some (n - 55)%Z
  else None.

Definition is_digit (base : Z) (c : ascii) : bool :=
  match digit_value c with
  | Some d => (d <? base)%Z
  | None => false
  end.

(** The longest prefix of digits of the base, and what follows it. *)
Fixpoint span_digits (base : Z) (s : string) : string * string :=
  match s with
  | EmptyString => (EmptyString, EmptyString)
  | String c s' =>
      if is_digit base c
      then let '(ds, rest) := span_digits base s' in (String c ds, rest)
      else (EmptyString, s)
  end.

Fixpoint digits_value (base : Z) (acc : Z) (ds : string) : Z :=
  match ds with
  | EmptyString => acc
  | String c ds' =>
      let d := match digit_value c with Some d => d | None => 0%Z end in
      digits_value base (acc * base + d)%Z ds'
  end.

(** A non-decimal integer literal: digits of the base, nothing else. *)
Definition non_decimal (base : Z) (s : string) : number :=
  match span_digits base s with
  | (String c ds, EmptyString) => of_Z (digits_value base 0 (String c ds))
  | _ => NaN
  end.

(** An optional sign; [true] is minus. *)
Definition read_sign (s : string) : bool * string :=
  match s with
  | String "+" s' => (false, s')
  | String "-" s' => (true, s')
  | _ => (false, s)
  end.

(** The exponent part, if the rest of the literal is one (or is empty). *)
Definition exponent_part (s : string) : option Z :=
  match s with
  | EmptyString => Some 0%Z
  | String c s' =>
      if (Ascii.eqb c "e" || Ascii.eqb c "E") then
        let '(neg, s'') := read_sign s' in
        match span_digits 10 s'' with
        | (String d ds, EmptyString) =>
            let e := digits_value 10 0 (String d ds) in
            Some (if neg then Z.opp e else e)
        | _ => None
        end
      else None
  end.

(** The number of mantissa [m] scaled by the power of ten [k]. *)
Definition scale10 (neg : bool) (m k : Z) : number :=
  if (0 <=? k)%Z then of_ratio neg (m * 10 ^ k) 1
  else of_ratio neg m (10 ^ (- k)).

Definition unsigned_decimal (neg : bool) (s : string) : number :=
  if String.eqb s "Infinity" then S754_infinity neg else
  let '(int, rest) := span_digits 10 s in
  let '(frac, rest') :=
    match rest with
    | String "." r => span_digits 10 r
    | _ => (EmptyString, rest)
    end in
  if JsString.isEmpty int && JsString.isEmpty frac then NaN
  else
    match exponent_part rest' with
    | Some e =>
        scale10 neg (digits_value 10 0 (int ++ frac))
                (e - Z.of_nat (String.length frac))
    | None => NaN
    end.

(** [Number(s)] for a string [s]. *)
Definition Number (s : string) : number :=
  match JsString.trim s with
  | EmptyString => zero
  | String "0" (String c r) as t =>
      if (Ascii.eqb c "x" || Ascii.eqb c "X") then non_decimal 16 r
      else if (Ascii.eqb c "o" || Ascii.eqb c "O") then non_decimal 8 r
      else if (Ascii.eqb c "b" || Ascii.eqb c "B") then non_decimal 2 r
      else unsigned_decimal false t
  | t => let '(neg, u) := read_sign t in unsigned_decimal neg u
  end.

End JsNumber.

(** ** Computations that may throw *)

(** A thrown value: an [Error] instance with its [message] (this covers
    [TypeError] and [SyntaxError]), or anything else. *)
Inductive exn : Type :=
| Error (message : string)
| NotAnError.

Inductive result (A : Type) : Type :=
| Return (a : A)
| Throw (e : exn).

Arguments Return {A} a.
Arguments Throw {A} e.

(** A computation over a state of type [S]. *)
Definition M (S A : Type) : Type := S -> result A * S.

Definition ret {S A} (a : A) : M S A := fun s => (Return a, s).

Definition throw {S A} (e : exn) : M S A := fun s => (Throw e, s).

Definition bind {S A B} (c : M S A) (k : A -> M S B) : M S B :=
  fun s =>
    match c s with
    | (Return a, s') => k a s'
    | (Throw e, s') => (Throw e, s')
    end.

(** [try { c } catch (e) { h e }] *)
Definition try_catch {S A} (c : M S A) (h : exn -> M S A) : M S A :=
  fun s =>
    match c s with
    | (Return a, s') => (Return a, s')
    | (Throw e, s') => h e s'
    end.

(** [try { c } finally { f }] *)
Definition try_finally {S A} (c : M S A) (f : M S unit) : M S A :=
  fun s =>
    let '(r, s') := c s in
    match f s' with
    | (Return _, s'') => (r, s'')
    | (Throw e, s'') => (Throw e, s'')
    end.

(** A computation that needs no state, run inside one that has some. *)
Definition lift {S A} (r : result A) : M S A := fun s => (r, s).

Declare Scope js_scope.
Delimit Scope js_scope with js.
Notation "x <- c ;; k" := (bind c (fun x => k))
  (at level 61, c at next level, right associativity) : js_scope.
Notation "c ;; k" := (bind c (fun _ => k))
  (at level 61, right associativity) : js_scope.
Local Open Scope js_scope.

(** ** JSON values *)

(** What [JSON.parse] produces.  A number is kept as its rendering
    [String(n)], the only thing the program ever asks of it; an object is
    its own properties, each key once. *)
#[local] Set Warnings "-register-all".

Inductive json : Type :=
| JNull
| JBool (b : bool)
| JNumber (rendering : string)
| JString (s : string)
| JArray (items : list json)
| JObject (fields : list (string * json)).

(** A JavaScript value as the program meets it: [None] is [undefined]. *)
Definition jsvalue := option json.

Fixpoint assoc (k : string) (fs : list (string * json)) : option json :=
  match fs with
  | [] => None
  | (k', v) :: fs' => if String.eqb k k' then Some v else assoc k fs'
  end.

(** [j[k]] for [j] other than [null], for the property names the program
    reads ([error], [message], [detail], [feedback], [result]): none of
    them is defined on a prototype or on a primitive. *)
Definition get_own (j : json) (k : string) : jsvalue :=
  match j with
  | JObject fs => assoc k fs
  | _ => None
  end.

Definition null_property_message : string :=
  "Cannot read properties of null".

(** [j[k]] *)
Definition get (j : json) (k : string) : result jsvalue :=
  match j with
  | JNull => Throw (Error null_property_message)
  | _ => Return (get_own j k)
  end.

(** [d?.k] *)
Definition opt_get (d : jsvalue) (k : string) : jsvalue :=
  match d with
  | None | Some JNull => None
  | Some j => get_own j k
  end.

Definition nullish (v : jsvalue) : bool :=
  match v with
  | None | Some JNull => true
  | Some _ => false
  end.

(** [a ?? b] *)
Definition coalesce (a b : jsvalue) : jsvalue := if nullish a then b else a.

Infix "??" := coalesce (at level 60, right associativity).

(** [a ?? b] where reading [a] or [b] may throw: [b] is read only when
    [a] is [null] or [undefined]. *)
Definition or_else {S} (a b : M S jsvalue) : M S jsvalue :=
  v <- a ;; if nullish v then b else ret v.

(** [typeof v === 'string' ? v : undefined] *)
Definition if_string (v : jsvalue) : jsvalue :=
  match v with
  | Some (JString s) => Some (JString s)
  | _ => None
  end.

Definition to_primitive_message : string :=
  "Cannot convert object to primitive value".

(** The string a template literal makes of a value.  An array joins its
    items with commas, [null] items counting as empty; an object is
    [[object Object]] unless it has a property [toString] of its own,
    which, not being callable, leaves no way to a primitive. *)
Fixpoint ToString (v : json) : result string :=
  match v with
  | JNull => Return "null"
  | JBool b => Return (if b then "true" else "false")
  | JNumber r => Return r
  | JString s => Return s
  | JArray xs =>
      (fix join (first : bool) (xs : list json) : result string :=
         match xs with
         | [] => Return EmptyString
         | x :: xs' =>
             match match x with JNull => Return EmptyString | _ => ToString x end with
             | Throw e => Throw e
             | Return s =>
                 match join false xs' with
                 | Throw e => Throw e
                 | Return r =>
                     Return ((if first then EmptyString else ",") ++ s ++ r)
                 end
             end
         end) true xs
  | JObject fs =>
      match assoc "toString" fs with
      | Some _ => Throw (Error to_primitive_message)
      | None => Return "[object Object]"
      end
  end.

(** ** The response of a [fetch] *)

(** The body of a response: what [text()] resolves to and what [json()]
    resolves to, [None] when the text is not JSON.  A body is read once:
    a second read is rejected with a [TypeError]. *)
Record Body : Type := {
  text_of : string;
  json_of : option json
}.

(** [body] is [None] for a response without a body (a null body, as for
    status 204): [json()] then fails on the empty input and [text()]
    resolves to the empty string, neither marking anything as read. *)
Record Response : Type := {
  status : N;
  content_type : option string;
  body : option Body
}.

(** [res.ok] *)
Definition Response_ok (res : Response) : bool :=
  ((200 <=? status res) && (status res <=? 299))%N.

Definition json_syntax_message : string := "Unexpected end of JSON input".

Definition body_used_message : string :=
  "Failed to execute 'text' on 'Response': body stream already read".

(** [res.json()] and [res.text()]; the state is the flag [bodyUsed]. *)
Definition res_json (res : Response) : M bool json :=
  fun used =>
    match body res with
    | None => (Throw (Error json_syntax_message), used)
    | Some b =>
        if used then (Throw (Error body_used_message), used)
        else
          (match json_of b with
           | Some j => Return j
           | None => Throw (Error json_syntax_message)
           end, true)
    end.

Definition res_text (res : Response) : M bool string :=
  fun used =>
    match body res with
    | None => (Return EmptyString, used)
    | Some b =>
        if used then (Throw (Error body_used_message), used)
        else (Return (text_of b), true)
    end.

(** ** Reading and classifying a response *)

Inductive Feedback : Type := TOO_HIGH | TOO_LOW | CORRECT.

(** [{ ok: boolean; data?: GuessResponse; text?: string; err?: string }] *)
Record ReadBody : Type := {
  ok : bool;
  data : jsvalue;
  text : option string;
  err : option string
}.

(** [`HTTP ${res.status}`] *)
Definition http_status_text (res : Response) : string :=
  "HTTP " ++ JsString.decimal (status res).

(** [res.headers.get('content-type') || ''] *)
Definition content_type_of (res : Response) : string :=
  match content_type res with
  | Some s => s
  | None => EmptyString
  end.

Definition readBody (res : Response) : M bool ReadBody :=
  let ct := content_type_of res in
  if Response_ok res then
    if JsString.includes "application/json" ct then
      try_catch
        (j <- res_json res ;;
         ret {| ok := true; data := Some j; text := None; err := None |})
        (fun _ => ret {| ok := true; data := None; text := None; err := None |})
    else
      t <- res_text res ;;
      ret {| ok := true; data := None; text := Some (JsString.trim t);
             err := None |}
  else
    returned <-
      try_catch
        (if JsString.includes "application/json" ct then
           j <- res_json res ;;
           msg <- or_else (lift (get j "error"))
                    (or_else (lift (get j "message"))
                       (lift (get j "detail"))) ;;
           ret (Some {| ok := false; data := None; text := None;
                        err := Some match msg with
                                    | Some (JString s) => s
                                    | _ => http_status_text res
                                    end |})
         else ret None)
        (fun _ => ret None) ;;
    match returned with
    | Some b => ret b
    | None =>
        t <- res_text res ;;
        let t := JsString.trim t in
        ret {| ok := false; data := None; text := None;
               err := Some (if JsString.isEmpty t
                            then http_status_text res else t) |}
    end.

(** The literal a value is, if it is one of the three. *)
Definition literal (raw : jsvalue) : option Feedback :=
  match raw with
  | Some (JString s) =>
      if String.eqb s "TOO_HIGH" then Some TOO_HIGH
      else if String.eqb s "TOO_LOW" then Some TOO_LOW
      else if String.eqb s "CORRECT" then Some CORRECT
      else None
  | _ => None
  end.

Definition toFeedback (body : ReadBody) : option Feedback :=
  let raw :=
    opt_get (data body) "feedback" ??
    if_string (opt_get (data body) "message") ??
    if_string (opt_get (data body) "result") ??
    option_map JString (text body) in
  literal raw.

Definition labelFor (fb : Feedback) : string :=
  match fb with
  | TOO_HIGH => "Too High"
  | TOO_LOW => "Too Low"
  | CORRECT => "Correct"
  end.

(** ** The component's state and its handlers *)

(** The state cells of [App]: [useState] in the order of the source. *)
Record AppState : Type := {
  started : bool;
  value : string;
  error : string;
  msg : string;
  tries : N;
  loading : bool;
  finished : bool
}.

Definition initial : AppState :=
  {| started := false; value := EmptyString; error := EmptyString;
     msg := EmptyString; tries := 0; loading := false; finished := false |}.

(** What a handler hands to [fetch]. *)
Record Request : Type := {
  url : string;
  method : string;
  credentials : string;
  headers : list (string * string);
  payload : option string
}.

(** A request as issued, with the state cells as they stood then. *)
Record Call : Type := {
  request : Request;
  during : AppState
}.

(** The state cells and the requests issued so far, oldest first. *)
Record World : Type := {
  state : AppState;
  calls : list Call
}.

(** What the network does with a request: [fetch] resolves to a response
    or is rejected. *)
Inductive Reply : Type :=
| Responds (res : Response)
| Rejects (e : exn).

Definition Handler : Type := M World unit.

Definition update (f : AppState -> AppState) : Handler :=
  fun w => (Return tt, {| state := f (state w); calls := calls w |}).

Definition setStarted (b : bool) : Handler :=
  update (fun a => {| started := b; value := value a; error := error a;
                      msg := msg a; tries := tries a; loading := loading a;
                      finished := finished a |}).

Definition setValue (s : string) : Handler :=
  update (fun a => {| started := started a; value := s; error := error a;
                      msg := msg a; tries := tries a; loading := loading a;
                      finished := finished a |}).

Definition setError (s : string) : Handler :=
  update (fun a => {| started := started a; value := value a; error := s;
                      msg := msg a; tries := tries a; loading := loading a;
                      finished := finished a |}).

Definition setMsg (s : string) : Handler :=
  update (fun a => {| started := started a; value := value a;
                      error := error a; msg := s; tries := tries a;
                      loading := loading a; finished := finished a |}).

Definition setTries (n : N) : Handler :=
  update (fun a => {| started := started a; value := value a;
                      error := error a; msg := msg a; tries := n;
                      loading := loading a; finished := finished a |}).

Definition setLoading (b : bool) : Handler :=
  update (fun a => {| started := started a; value := value a;
                      error := error a; msg := msg a; tries := tries a;
                      loading := b; finished := finished a |}).

Definition setFinished (b : bool) : Handler :=
  update (fun a => {| started := started a; value := value a;
                      error := error a; msg := msg a; tries := tries a;
                      loading := loading a; finished := b |}).

(** The cells as the render that created the handler saw them. *)
Definition rendered : M World AppState := fun w => (Return (state w), w).

(** [await fetch(...)]: the request goes out, the reply comes back. *)
Definition fetch (req : Request) (reply : Reply) : M World Response :=
  fun w =>
    let w' := {| state := state w;
                 calls := calls w ++ [{| request := req; during := state w |}] |} in
    match reply with
    | Responds res => (Return res, w')
    | Rejects e => (Throw e, w')
    end.

(** [await readBody(res)] on the response [fetch] has just resolved to. *)
Definition await_readBody (res : Response) : M World ReadBody :=
  lift (fst (readBody res false)).

(** [new Error(s)] for [s] a string or [undefined]. *)
Definition new_Error (s : option string) : exn :=
  Error match s with Some m => m | None => EmptyString end.

(** [e instanceof Error ? e.message : fallback] *)
Definition message_or (fallback : string) (e : exn) : string :=
  match e with
  | Error m => m
  | NotAnError => fallback
  end.

Definition isBlank (s : string) : bool :=
  JsString.isEmpty (JsString.trim s).

Definition start_request : Request :=
  {| url := "/api"; method := "GET"; credentials := "include";
     headers := []; payload := None |}.

Definition reset_request : Request :=
  {| url := "/api/reset"; method := "GET"; credentials := "include";
     headers := []; payload := None |}.

(** [JSON.stringify({ number: n })] for an integral [n] from 0 to 1000
    (minus zero is written 0). *)
Definition stringify_number (n : JsNumber.number) : string :=
  "{" ++ JsString.quoted "number" ++ ":"
      ++ JsString.decimal (Z.to_N (JsNumber.to_Z n)) ++ "}".

Definition guess_request (n : JsNumber.number) : Request :=
  {| url := "/api"; method := "POST"; credentials := "include";
     headers := [("Content-Type", "application/json")];
     payload := Some (stringify_number n) |}.

Definition startGame (reply : Reply) : Handler :=
  setError EmptyString ;; setMsg EmptyString ;;
  try_finally
    (try_catch
       (setLoading true ;;
        res <- fetch start_request reply ;;
        b <- await_readBody res ;;
        if negb (ok b) then throw (new_Error (err b)) else
        setStarted true ;;
        setFinished false ;;
        setTries 0 ;;
        setValue EmptyString)
       (fun e => setError (message_or "Failed to start" e)))
    (setLoading false).

Definition resetGame (reply : Reply) : Handler :=
  setError EmptyString ;;
  try_catch
    (res <- fetch reset_request reply ;;
     b <- await_readBody res ;;
     if negb (ok b) then throw (new_Error (err b)) else
     setMsg "Game reset. Counter set to 0." ;;
     setTries 0 ;;
     setValue EmptyString ;;
     setFinished false)
    (fun e => setError (message_or "Failed to reset" e)).

(** [!Number.isInteger(n) || n < 0 || n > 1000] *)
Definition out_of_range (n : JsNumber.number) : bool :=
  negb (JsNumber.isInteger n) || JsNumber.ltb n JsNumber.zero
  || JsNumber.ltb (JsNumber.of_Z 1000) n.

(** [b.text ?? (b.data?.message ?? b.data?.result ?? 'Submitted.')] *)
Definition fallback_raw (b : ReadBody) : jsvalue :=
  option_map JString (text b) ??
  (opt_get (data b) "message" ?? opt_get (data b) "result" ??
   Some (JString "Submitted.")).

(** [`${raw}`]; [undefined] would read [undefined]. *)
Definition template (raw : jsvalue) : result string :=
  match raw with
  | Some j => ToString j
  | None => Return "undefined"
  end.

Definition is_CORRECT (fb : option Feedback) : bool :=
  match fb with
  | Some CORRECT => true
  | _ => false
  end.

Definition submitGuess (reply : Reply) : Handler :=
  cells <- rendered ;;
  setError EmptyString ;; setMsg EmptyString ;;
  if isBlank (value cells) then setError "Please enter a number" else
  let n := JsNumber.Number (value cells) in
  if out_of_range n then setError "Enter an integer between 0 and 1000" else
  try_finally
    (try_catch
       (setLoading true ;;
        res <- fetch (guess_request n) reply ;;
        b <- await_readBody res ;;
        if negb (ok b) then throw (new_Error (err b)) else
        let fb := toFeedback b in
        setFinished (is_CORRECT fb) ;;
        let newTries := (tries cells + 1)%N in
        setTries newTries ;;
        match fb with
        | Some fb =>
            setMsg (labelFor fb ++ ". Total guess " ++ JsString.decimal newTries)
        | None =>
            raw <- lift (template (fallback_raw b)) ;;
            setMsg (raw ++ ". Total guess " ++ JsString.decimal newTries)
        end ;;
        setValue EmptyString)
       (fun e => setError (message_or "Guess failed" e)))
    (setLoading false).

(** ** Intents *)

(** What the user does, with the reply the network would give. *)
Inductive Intent : Type :=
| Type_value (s : string)
| Click_start (reply : Reply)
| Click_reset (reply : Reply)
| Submit_guess (reply : Reply).

Definition handler (i : Intent) : Handler :=
  match i with
  | Type_value s => setValue s
  | Click_start reply => startGame reply
  | Click_reset reply => resetGame reply
  | Submit_guess reply => submitGuess reply
  end.

Definition step (w : World) (i : Intent) : World := snd (handler i w).

Definition run (w : World) (intents : list Intent) : World :=
  fold_left step intents w.

Definition boot : World := {| state := initial; calls := [] |}.

(** The states the component can be in. *)
Definition reachable (w : World) : Prop := exists intents, w = run boot intents.

(** ** Outcomes *)

(** The three ways a response to a guess is taken: a recognised
    feedback, a message made of some other value, an error text. *)
Inductive Outcome : Type :=
| Feedback_of (fb : Feedback)
| Message_of (raw : jsvalue)
| Error_of (text : string).

(** The outcome [submitGuess] acts on: [readBody], then [toFeedback] and
    the fallback of [submitGuess] when the response is ok. *)
Definition interpret (res : Response) : result Outcome :=
  match fst (readBody res false) with
  | Throw e => Throw e
  | Return b =>
      Return
        (if ok b then
           match toFeedback b with
           | Some fb => Feedback_of fb
           | None => Message_of (fallback_raw b)
           end
         else Error_of (message_or EmptyString (new_Error (err b))))
  end.

(** The message of what a handler catches when the reply does not
    succeed: the rejection of [fetch], that of [readBody], or the error
    text of a response read as not ok. *)
Definition failure_text (fallback : string) (reply : Reply) : string :=
  match reply with
  | Rejects e => message_or fallback e
  | Responds res =>
      match fst (readBody res false) with
      | Throw e => message_or fallback e
      | Return b => message_or fallback (new_Error (err b))
      end
  end.

(** The response says it is JSON. *)
Definition claims_json (res : Response) : bool :=
  JsString.includes "application/json" (content_type_of res).

(** The text of the body, empty when there is none. *)
Definition body_text (res : Response) : string :=
  match body res with
  | Some b => text_of b
  | None => EmptyString
  end.

(** The input passes both checks of [submitGuess]. *)
Definition valid_input (s : string) : bool :=
  negb (isBlank s) && negb (out_of_range (JsNumber.Number s)).

(** The reply is a response that [readBody] reads as ok. *)
Definition succeeds (reply : Reply) : bool :=
  match reply with
  | Responds res =>
      match fst (readBody res false) with
      | Return b => ok b
      | Throw _ => false
      end
  | Rejects _ => false
  end.

(** The reply is a response with a feedback or a message for outcome. *)
Definition classified (reply : Reply) : bool :=
  match reply with
  | Responds res =>
      match interpret res with
      | Return (Feedback_of _) | Return (Message_of _) => true
      | _ => false
      end
  | Rejects _ => false
  end.

(** ** Sample responses *)

Definition json_response (st : N) (t : string) (j : json) : Response :=
  {| status := st; content_type := Some "application/json";
     body := Some {| text_of := t; json_of := Some j |} |}.

Definition field (k v : string) : string :=
  JsString.quoted k ++ ":" ++ v.

(** 200, [{"feedback":"TOO_LOW"}] *)
Definition res_too_low : Response :=
  json_response 200
    ("{" ++ field "feedback" (JsString.quoted "TOO_LOW") ++ "}")
    (JObject [("feedback", JString "TOO_LOW")]).

(** 200, [{"feedback":"CORRECT"}] *)
Definition res_correct : Response :=
  json_response 200
    ("{" ++ field "feedback" (JsString.quoted "CORRECT") ++ "}")
    (JObject [("feedback", JString "CORRECT")]).


(** 200, [{}] *)
Definition res_empty_object : Response :=
  json_response 200 "{}" (JObject []).

(** 500, [{"error":"session expired"}] *)
Definition res_session_expired : Response :=
  json_response 500
    ("{" ++ field "error" (JsString.quoted "session expired") ++ "}")
    (JObject [("error", JString "session expired")]).

(** 500, [{"error":42}] *)
Definition res_error_number : Response :=
  json_response 500
    ("{" ++ field "error" "42" ++ "}")
    (JObject [("error", JNumber "42")]).

(** 500, content type JSON, a body that is not JSON. *)
Definition res_unparsable_error : Response :=
  {| status := 500; content_type := Some "application/json";
     body := Some {| text_of := "Internal Server Error";
                     json_of := None |} |}.

(** 200, [{"feedback":"TOO_HIGH"}] *)
Definition res_too_high : Response :=
  json_response 200
    ("{" ++ field "feedback" (JsString.quoted "TOO_HIGH") ++ "}")
    (JObject [("feedback", JString "TOO_HIGH")]).

(** 200, content type JSON, an empty body. *)
Definition res_empty_json : Response :=
  {| status := 200; content_type := Some "application/json";
     body := Some {| text_of := EmptyString; json_of := None |} |}.

(** 200, plain text [CORRECT] followed by a line feed. *)
Definition res_plain_correct : Response :=
  {| status := 200; content_type := Some "text/plain";
     body := Some {| text_of := "CORRECT" ++ String "010"%char EmptyString;
                     json_of := None |} |}.

(** 500, the JSON body [null]. *)
Definition res_null_error : Response := json_response 500 "null" JNull.

(** ** Sample sessions *)

(** A game is started and 500 is typed. *)
Definition typed_500 : World :=
  run boot [Click_start (Responds res_empty_object); Type_value "500"].

(** A game is started, 375 is guessed and is correct, 10 is typed. *)
Definition won_then_typed : World :=
  run boot [Click_start (Responds res_empty_object); Type_value "375";
            Submit_guess (Responds res_correct); Type_value "10"].

(** A game is started, 500 is guessed and is too low. *)
Definition guessed_low : World :=
  run boot [Click_start (Responds res_empty_object); Type_value "500";
            Submit_guess (Responds res_too_low)].

(** A game is started, 500 is guessed and is too low, 250 is typed. *)
Definition low_then_typed_250 : World :=
  run boot [Click_start (Responds res_empty_object); Type_value "500";
            Submit_guess (Responds res_too_low); Type_value "250"].

(** A game is started, 375 is guessed and is correct. *)
Definition won : World :=
  run boot [Click_start (Responds res_empty_object); Type_value "375";
            Submit_guess (Responds res_correct)].

(** The integers from 0 to 1000. *)
Definition guessable : list N := map N.of_nat (seq 0 1001).

(** [{"number":n}] *)
Definition number_payload (n : N) : string :=
  "{" ++ JsString.quoted "number" ++ ":" ++ JsString.decimal n ++ "}".

(** Typed in decimal, [n] passes the checks and is sent as it is. *)
Definition sent_as_typed (n : N) : bool :=
  valid_input (JsString.decimal n) &&
  String.eqb (stringify_number (JsNumber.Number (JsString.decimal n)))
             (number_payload n).

(** ** What the component renders *)

(** The part of the rendered tree ([return (...)] of [App]) that depends
    on the state cells: which controls exist, which are disabled, and
    the texts taken from the cells.  Styles and fixed captions are not
    part of it, nor is the caption of the start button. *)
Record GuessForm : Type := {
  input_value : string;
  guess_disabled : bool;
  error_shown : option string;
  msg_shown : option string
}.

Record View : Type := {
  reset_button : option string;
  start_button : option bool;
  guess_form : option GuessForm
}.

(** [{s && <div>{s}</div>}]: an empty string renders nothing. *)
Definition shown (s : string) : option string :=
  if JsString.isEmpty s then None else Some s.

(** [reset_button] holds the caption of the button, [start_button]
    whether the button is disabled. *)
Definition render (a : AppState) : View :=
  {| reset_button :=
       if started a
       then Some (if finished a then "Start new game" else "Reset game")
       else None;
     start_button := if started a then None else Some (loading a);
     guess_form :=
       if started a
       then Some {| input_value := value a;
                    guess_disabled := loading a || isBlank (value a);
                    error_shown := shown (error a);
                    msg_shown := shown (msg a) |}
       else None |}.

(** ** Events *)

Definition onKeyDown (key : string) (reply : Reply) : Handler :=
  cells <- rendered ;;
  if String.eqb key "Enter" && negb (isBlank (value cells))
  then submitGuess reply
  else ret tt.

(** What reaches the rendered controls, with the reply the network would
    give to a request. *)
Inductive Event : Type :=
| Change (s : string)
| Key_down (key : string) (reply : Reply)
| Click_start_button (reply : Reply)
| Click_reset_button (reply : Reply)
| Click_guess_button (reply : Reply).

(** The event runs the handler the rendered tree attaches to its control;
    a control that is not rendered, or a disabled button, runs nothing. *)
Definition dispatch (w : World) (e : Event) : World :=
  let v := render (state w) in
  match e with
  | Change s =>
      match guess_form v with
      | Some _ => snd (setValue s w)
      | None => w
      end
  | Key_down key reply =>
      match guess_form v with
      | Some _ => snd (onKeyDown key reply w)
      | None => w
      end
  | Click_start_button reply =>
      match start_button v with
      | Some false => snd (startGame reply w)
      | _ => w
      end
  | Click_reset_button reply =>
      match reset_button v with
      | Some _ => snd (resetGame reply w)
      | None => w
      end
  | Click_guess_button reply =>
      match guess_form v with
      | Some f => if guess_disabled f then w else snd (submitGuess reply w)
      | None => w
      end
  end.

Definition ui_run (w : World) (events : list Event) : World :=
  fold_left dispatch events w.

(** ** Numbers as text *)

(** [String(x)] and [JSON.stringify(x)] for a number [x]: the shortest
    decimal digits that read back as [x], the nearest to [x] when several
    do, laid out plainly or with an exponent as the magnitude asks. *)
Module JsNumberText.

(** The exact value [m * 2^e] as a fraction. *)
Definition exact (m : positive) (e : Z) : Z * Z :=
  match e with
  | Zneg p => (Zpos m, Z.pow 2 (Zpos p))
  | _ => (Z.mul (Zpos m) (Z.pow 2 e), 1%Z)
  end.

(** [a / b] times [10^p], as a fraction. *)
Definition times10 (a b p : Z) : Z * Z :=
  if (0 <=? p)%Z then (a * 10 ^ p, b)%Z else (a, b * 10 ^ (- p))%Z.

(** The number of decimal digits of a positive integer. *)
Definition digits10 (q : Z) : Z :=
  Z.of_nat (String.length (JsString.decimal (Z.to_N q))).

(** For [a < b], the least [j >= 1] with [b <= a * 10^j]. *)
Fixpoint shift_up (fuel : nat) (a b j : Z) : Z :=
  match fuel with
  | O => j
  | S fuel' =>
      if (b <=? a * 10)%Z then j else shift_up fuel' (a * 10)%Z b (j + 1)%Z
  end.

(** The [n] with [10^(n-1) <= a / b < 10^n]. *)
Definition magnitude (a b : Z) : Z :=
  if (b <=? a)%Z then digits10 (a / b) else (1 - shift_up 400 a b 1)%Z.

(** The pairs [(s, n)] with [k] digits in [s] and [s * 10^(n-k)] rounding
    to [x], among the two integers next to the exact quotient, for
    [n] the magnitude [n0] and the one above. *)
Definition candidates (x : JsNumber.number) (a b k n0 : Z) : list (Z * Z) :=
  let near (n : Z) :=
    let '(c, d) := times10 a b (k - n) in
    [((c / d)%Z, n); ((c / d + 1)%Z, n)] in
  filter (fun '(s, n) =>
            (10 ^ (k - 1) <=? s)%Z && (s <? 10 ^ k)%Z &&
            SFeqb (JsNumber.scale10 false s (n - k)) x)
         (near n0 ++ near (n0 + 1)%Z).

(** How far [s * 10^(n-k)] is from [a / b], in units of [10^(n0-k) / d]. *)
Definition distance (a b k n0 : Z) (sn : Z * Z) : Z :=
  let '(c, d) := times10 a b (k - n0) in
  let '(s, n) := sn in
  Z.abs (s * 10 ^ (n - n0) * d - c).

(** The nearest candidate, the even one of two equally near. *)
Fixpoint nearest (a b k n0 : Z) (cs : list (Z * Z)) : option (Z * Z) :=
  match cs with
  | [] => None
  | c :: cs' =>
      match nearest a b k n0 cs' with
      | None => Some c
      | Some c' =>
          let dc := distance a b k n0 c in
          let dc' := distance a b k n0 c' in
          if (dc <? dc')%Z then Some c
          else if (dc' <? dc)%Z then Some c'
          else if Z.even (fst c) then Some c else Some c'
      end
  end.

(** The shortest digits: the least [k] from [k] on that has a candidate. *)
Fixpoint shortest (fuel : nat) (x : JsNumber.number) (a b k n0 : Z)
  : option (Z * Z * Z) :=
  match fuel with
  | O => None
  | S fuel' =>
      match nearest a b k n0 (candidates x a b k n0) with
      | Some (s, n) => Some (k, s, n)
      | None => shortest fuel' x a b (k + 1)%Z n0
      end
  end.

Definition zeros (n : Z) : string :=
  string_of_list_ascii (repeat "0"%char (Z.to_nat n)).

Definition layout (ds : string) (k n : Z) : string :=
  if ((-5 <=? n) && (n <=? 21))%Z then
    if (k <=? n)%Z then ds ++ zeros (n - k)
    else if (0 <? n)%Z then
      substring 0 (Z.to_nat n) ds ++ "." ++
      substring (Z.to_nat n) (Z.to_nat (k - n)) ds
    else "0." ++ zeros (- n) ++ ds
  else
    let c := (n - 1)%Z in
    let es := (if (c <? 0)%Z then "-" else "+")
                ++ JsString.decimal (Z.to_N (Z.abs c)) in
    match ds with
    | String d EmptyString => String d ("e" ++ es)
    | String d rest => String d ("." ++ rest ++ "e" ++ es)
    | EmptyString => EmptyString
    end.

(** [String(x)] for a number [x]. *)
Definition toString (x : JsNumber.number) : string :=
  match x with
  | S754_nan => "NaN"
  | S754_infinity s => if s then "-Infinity" else "Infinity"
  | S754_zero _ => "0"
  | S754_finite sg m e =>
      let '(a, b) := exact m e in
      let body :=
        match shortest 17 (S754_finite false m e) a b 1 (magnitude a b) with
        | Some (k, s, n) => layout (JsString.decimal (Z.to_N s)) k n
        | None => "NaN"
        end in
      if sg then "-" ++ body else body
  end.

(** [JSON.stringify(x)] for a number [x]. *)
Definition stringify (x : JsNumber.number) : string :=
  match x with
  | S754_nan | S754_infinity _ => "null"
  | _ => toString x
  end.

End JsNumberText.

(** ** The [api] object *)

Definition api_startGame (reply : Reply) : M World unit :=
  res <- fetch start_request reply ;;
  if negb (Response_ok res) then throw (Error "Failed to start") else ret tt.

Definition api_resetGame (reply : Reply) : M World unit :=
  res <- fetch reset_request reply ;;
  if negb (Response_ok res) then throw (Error "Failed to reset") else ret tt.

(** [JSON.stringify({ number: value })] for any number [value]. *)
Definition stringify_number_field (n : JsNumber.number) : string :=
  "{" ++ JsString.quoted "number" ++ ":" ++ JsNumberText.stringify n ++ "}".

Definition api_guess_request (n : JsNumber.number) : Request :=
  {| url := "/api"; method := "POST"; credentials := "include";
     headers := [("Content-Type", "application/json")];
     payload := Some (stringify_number_field n) |}.

Definition api_guess (n : JsNumber.number) (reply : Reply) : M World json :=
  res <- fetch (api_guess_request n) reply ;;
  if negb (Response_ok res) then throw (Error "Guess failed") else
  lift (fst (try_catch (res_json res) (fun _ => ret (JObject [])) false)).

(** ** Handlers that overlap *)

(** A handler gives way at its [await fetch(...)]: the request goes out,
    and the rest of the handler runs when the reply arrives, with the
    cells its closure took from the render that created it.  Other
    handlers may run in between. *)

(** [fetch(...)] up to its [await]. *)
Definition send (req : Request) : M World unit :=
  fun w =>
    (Return tt,
     {| state := state w;
        calls := calls w ++ [{| request := req; during := state w |}] |}).

(** What [await fetch(...)] gives once the reply is there. *)
Definition arrived (reply : Reply) : result Response :=
  match reply with
  | Responds res => Return res
  | Rejects e => Throw e
  end.

(** [submitGuess] up to its [await fetch(...)].  The result is [None]
    when a check turned the input down, and otherwise the [tries] of the
    render, which the rest of the handler will use. *)
Definition submitGuess_send : M World (option N) :=
  cells <- rendered ;;
  setError EmptyString ;; setMsg EmptyString ;;
  if isBlank (value cells)
  then setError "Please enter a number" ;; ret None else
  let n := JsNumber.Number (value cells) in
  if out_of_range n
  then setError "Enter an integer between 0 and 1000" ;; ret None else
  setLoading true ;;
  send (guess_request n) ;;
  ret (Some (tries cells)).

(** [submitGuess] from the reply on, for a render that saw [tries]. *)
Definition submitGuess_receive (tries : N) (reply : Reply) : Handler :=
  try_finally
    (try_catch
       (res <- lift (arrived reply) ;;
        b <- await_readBody res ;;
        if negb (ok b) then throw (new_Error (err b)) else
        let fb := toFeedback b in
        setFinished (is_CORRECT fb) ;;
        let newTries := (tries + 1)%N in
        setTries newTries ;;
        match fb with
        | Some fb =>
            setMsg (labelFor fb ++ ". Total guess " ++ JsString.decimal newTries)
        | None =>
            raw <- lift (template (fallback_raw b)) ;;
            setMsg (raw ++ ". Total guess " ++ JsString.decimal newTries)
        end ;;
        setValue EmptyString)
       (fun e => setError (message_or "Guess failed" e)))
    (setLoading false).

(** [onKeyDown] up to the [await fetch(...)] of the guess it submits. *)
Definition onKeyDown_send (key : string) : M World (option N) :=
  cells <- rendered ;;
  if String.eqb key "Enter" && negb (isBlank (value cells))
  then submitGuess_send
  else ret None.

(** The component with the guesses that wait for their reply, oldest
    first, each with the [tries] its render saw. *)
Record Live : Type := {
  world : World;
  awaiting : list N
}.

(** A key pressed in the input, a text typed into it, or the reply to
    the guess waiting at a position. *)
Inductive Move : Type :=
| Key (key : string)
| Typing (s : string)
| Arrive (i : nat) (reply : Reply).

Definition move (l : Live) (m : Move) : Live :=
  match m with
  | Key key =>
      match guess_form (render (state (world l))) with
      | Some _ =>
          let '(r, w) := onKeyDown_send key (world l) in
          {| world := w;
             awaiting := awaiting l ++
                         match r with
                         | Return (Some seen) => [seen]
                         | _ => []
                         end |}
      | None => l
      end
  | Typing s =>
      match guess_form (render (state (world l))) with
      | Some _ => {| world := snd (setValue s (world l));
                     awaiting := awaiting l |}
      | None => l
      end
  | Arrive i reply =>
      match nth_error (awaiting l) i with
      | Some seen =>
          {| world := snd (submitGuess_receive seen reply (world l));
             awaiting := firstn i (awaiting l) ++ skipn (S i) (awaiting l) |}
      | None => l
      end
  end.

Definition play (l : Live) (moves : list Move) : Live :=
  fold_left move moves l.

(** 500 is typed and Enter is pressed twice before any reply. *)
Definition entered_twice : Live :=
  play {| world := typed_500; awaiting := [] |} [Key "Enter"; Key "Enter"].

(** Both guesses are answered TOO_LOW. *)
Definition answered_low_once : Live :=
  play entered_twice [Arrive 0 (Responds res_too_low)].

Definition answered_low_twice : Live :=
  play answered_low_once [Arrive 0 (Responds res_too_low)].

(** The later guess is answered first, CORRECT; then the earlier one,
    TOO_HIGH. *)
Definition answered_correct_then_high : Live :=
  play entered_twice [Arrive 1 (Responds res_correct);
                      Arrive 0 (Responds res_too_high)].

(** 1000.0000000000000001 is typed. *)
Definition typed_above_1000 : World :=
  step typed_500 (Type_value "1000.0000000000000001").

(** Written by [JSON.stringify], the integer is its decimal digits. *)
Definition written_in_decimal (k : N) : bool :=
  String.eqb (JsNumberText.stringify (JsNumber.of_Z (Z.of_N k)))
             (JsString.decimal k).

(** ** Notions the properties use *)

(** Every character is white space. *)
Fixpoint all_white (s : string) : bool :=
  match s with
  | EmptyString => true
  | String c s' => JsString.isWhiteSpace c && all_white s'
  end.

(** The literal of a feedback. *)
Definition feedback_name (fb : Feedback) : string :=
  match fb with
  | TOO_HIGH => "TOO_HIGH"
  | TOO_LOW => "TOO_LOW"
  | CORRECT => "CORRECT"
  end.

(** The mantissa of a finite number is below 2^53. *)
Definition mantissa_fits (n : JsNumber.number) : Prop :=
  match n with
  | S754_finite _ m _ => (Zpos m < 2 ^ 53)%Z
  | _ => True
  end.

(** The POST of the integer [k]. *)
Definition post_of (k : N) : Request :=
  {| url := "/api"; method := "POST"; credentials := "include";
     headers := [("Content-Type", "application/json")];
     payload := Some (number_payload k) |}.

(** The request is one of the three the component sends: the start, the
    reset, or the POST of an integer from 0 to 1000. *)
Definition known_request (r : Request) : Prop :=
  r = start_request \/ r = reset_request \/
  exists k : N, (k <= 1000)%N /\ r = post_of k.

(** The number of requests an intent issues in a state. *)
Definition requests_of (a : AppState) (i : Intent) : nat :=
  match i with
  | Type_value _ => 0
  | Click_start _ | Click_reset _ => 1
  | Submit_guess _ => if valid_input (value a) then 1 else 0
  end.

Definition is_successful_start (i : Intent) : bool :=
  match i with
  | Click_start reply => succeeds reply
  | _ => false
  end.

Definition is_guess (i : Intent) : bool :=
  match i with
  | Submit_guess _ => true
  | _ => false
  end.

Definition is_typing (i : Intent) : bool :=
  match i with
  | Type_value _ => true
  | _ => false
  end.

(** A started game with 42 typed, while [loading] is set. *)
Definition pending_42 : World :=
  {| state := {| started := true; value := "42"; error := EmptyString;
                 msg := EmptyString; tries := 0; loading := true;
                 finished := false |};
     calls := [] |}.

(** * Properties *)

(** ** Reading a response *)


Lemma readBody_ok_text (res : Response) :
  Response_ok res = true ->
  claims_json res = false ->
  fst (readBody res false) =
    Return {| ok := true; data := None;
              text := Some (JsString.trim (body_text res)); err := None |}.
Proof.
  unfold readBody, claims_json, body_text, bind, ret, res_text.
  intros -> ->. destruct (body res); reflexivity.
Qed.

Lemma readBody_error_json (res : Response) (b : Body) (j : json) :
  Response_ok res = false ->
  claims_json res = true ->
  body res = Some b ->
  json_of b = Some j ->
  j <> JNull ->
  readBody res false =
    (Return {| ok := false; data := None; text := None;
               err := Some match get_own j "error" ?? get_own j "message"
                                 ?? get_own j "detail" with
                           | Some (JString s) => s
                           | _ => http_status_text res
                           end |}, true).
Proof.
  unfold readBody, claims_json, try_catch, or_else, bind, ret, res_json,
    lift, coalesce.
  intros -> -> -> -> Hj.
  destruct j as [| | | | |fs]; try contradiction; try reflexivity.
  cbn [get get_own].
  destruct (nullish (assoc "error" fs)); [|reflexivity].
  destruct (nullish (assoc "message" fs)); reflexivity.
Qed.

Lemma readBody_error_text (res : Response) :
  Response_ok res = false ->
  claims_json res = false ->
  fst (readBody res false) =
    Return {| ok := false; data := None; text := None;
              err := Some (if JsString.isEmpty (JsString.trim (body_text res))
                           then http_status_text res
                           else JsString.trim (body_text res)) |}.
Proof.
  unfold readBody, claims_json, body_text, try_catch, bind, ret, res_text.
  intros -> ->. destruct (body res); reflexivity.
Qed.

Lemma readBody_error_no_body (res : Response) :
  Response_ok res = false ->
  body res = None ->
  fst (readBody res false) =
    Return {| ok := false; data := None; text := None;
              err := Some (http_status_text res) |}.
Proof.
  unfold readBody, try_catch, bind, ret, res_text, res_json.
  intros -> ->.
  destruct (JsString.includes "application/json" (content_type_of res));
    reflexivity.
Qed.

(** A response that is not ok, says it is JSON and has a body that is
    not: [readBody] is rejected, the body having been read already. *)
Lemma readBody_error_unparsable (res : Response) (b : Body) :
  Response_ok res = false ->
  claims_json res = true ->
  body res = Some b ->
  json_of b = None ->
  readBody res false = (Throw (Error body_used_message), true).
Proof.
  unfold readBody, claims_json, try_catch, bind, ret, res_text, res_json.
  intros -> -> -> ->. reflexivity.
Qed.

(** ** Classifying a body *)

Lemma literal_label (v : jsvalue) (fb : Feedback) :
  literal v = Some fb ->
  v = Some (JString match fb with
                    | TOO_HIGH => "TOO_HIGH"
                    | TOO_LOW => "TOO_LOW"
                    | CORRECT => "CORRECT"
                    end).
Proof.
  unfold literal. destruct v as [[| | |s| |]|]; try discriminate.
  destruct (String.eqb s "TOO_HIGH") eqn:E1.
  { apply String.eqb_eq in E1. intros [= <-]. now subst. }
  destruct (String.eqb s "TOO_LOW") eqn:E2.
  { apply String.eqb_eq in E2. intros [= <-]. now subst. }
  destruct (String.eqb s "CORRECT") eqn:E3; [|discriminate].
  apply String.eqb_eq in E3. intros [= <-]. now subst.
Qed.




(** ** The error text of a response that is not ok *)

(** C2 as the code has it, for a response that is not 2xx.  With a JSON
    content type and a body that parses (to something other than [null]),
    the text is the first of [error], [message], [detail] that is neither
    absent nor [null] when that value is a string, and otherwise
    [HTTP <status>] at once.  Without a JSON content type the text is the
    trimmed body, or [HTTP <status>] when that is empty.  Either way the
    outcome is an error with that text. *)
Theorem C2_error_text (res : Response) :
  Response_ok res = false ->
  (forall b j,
      claims_json res = true -> body res = Some b -> json_of b = Some j ->
      j <> JNull ->
      interpret res =
        Return (Error_of
                  match get_own j "error" ?? get_own j "message"
                        ?? get_own j "detail" with
                  | Some (JString s) => s
                  | _ => http_status_text res
                  end)) /\
  (claims_json res = false ->
   interpret res =
     Return (Error_of
               (if JsString.isEmpty (JsString.trim (body_text res))
                then http_status_text res
                else JsString.trim (body_text res)))).
Proof.
  intros Hok. split.
  - intros b j Hct Hb Hj Hnull. unfold interpret.
    rewrite (readBody_error_json res b j Hok Hct Hb Hj Hnull). reflexivity.
  - intros Hct. unfold interpret.
    rewrite (readBody_error_text res Hok Hct). reflexivity.
Qed.

Lemma C2_error_text_witness :
  interpret res_session_expired = Return (Error_of "session expired") /\
  interpret {| status := 404; content_type := Some "text/plain";
               body := Some {| text_of := " Not Found "; json_of := None |} |}
    = Return (Error_of "Not Found").
Proof.
  split.
  - exact (proj1 (C2_error_text res_session_expired eq_refl)
             {| text_of := body_text res_session_expired;
                json_of := Some (JObject [("error", JString "session expired")]) |}
             (JObject [("error", JString "session expired")])
             eq_refl eq_refl eq_refl ltac:(discriminate)).
  - exact (proj2 (C2_error_text
                    {| status := 404; content_type := Some "text/plain";
                       body := Some {| text_of := " Not Found ";
                                       json_of := None |} |} eq_refl)
             eq_refl).
Defined.

(** C2 fails as stated: for 500 with the JSON body [{"error":42}] the
    first present field is not a string, and the text is [HTTP 500], not
    the trimmed body. *)
Lemma C2_counterexample :
  interpret res_error_number = Return (Error_of "HTTP 500") /\
  JsString.trim (body_text res_error_number) <> "HTTP 500" /\
  JsString.isEmpty (JsString.trim (body_text res_error_number)) = false.
Proof.
  repeat split. discriminate.
Qed.

(** ** The handlers, case by case *)

Ltac unfold_handlers :=
  unfold step, handler, submitGuess, startGame, resetGame, rendered,
    try_finally, try_catch, bind, ret, throw, lift, fetch, await_readBody,
    setStarted, setValue, setError, setMsg, setTries, setLoading,
    setFinished, update, valid_input, interpret, succeeds, classified in *;
  unfold lift in *.

Ltac simp_cells :=
  cbn [state calls fst snd negb
       started value error msg tries loading finished] in *.

Ltac split_valid H :=
  apply andb_true_iff in H; destruct H as [?Hblank ?Hrange];
  apply negb_true_iff in Hblank; apply negb_true_iff in Hrange.

Ltac read_body res :=
  let rb := fresh "rb" in
  let e := fresh "e" in
  let u := fresh "u" in
  destruct (readBody res false) as [[rb|e] u]; simp_cells.

(** The cells after a guess the checks turn down. *)
Lemma guess_invalid (w : World) (reply : Reply) :
  valid_input (value (state w)) = false ->
  step w (Submit_guess reply) =
    {| state :=
         {| started := started (state w); value := value (state w);
            error := if isBlank (value (state w))
                     then "Please enter a number"
                     else "Enter an integer between 0 and 1000";
            msg := EmptyString; tries := tries (state w);
            loading := loading (state w); finished := finished (state w) |};
       calls := calls w |}.
Proof.
  intros H. unfold_handlers. simp_cells.
  destruct (isBlank (value (state w))); [reflexivity|].
  cbn in H. apply negb_false_iff in H. rewrite H. reflexivity.
Qed.

(** A guess that passes the checks issues one request, with [loading]
    set and both texts cleared. *)
Lemma guess_valid_calls (w : World) (reply : Reply) :
  valid_input (value (state w)) = true ->
  calls (step w (Submit_guess reply)) =
    (calls w ++
     [{| request := guess_request (JsNumber.Number (value (state w)));
         during :=
           {| started := started (state w); value := value (state w);
              error := EmptyString; msg := EmptyString;
              tries := tries (state w); loading := true;
              finished := finished (state w) |} |}])%list.
Proof.
  intros H. split_valid H. unfold_handlers. simp_cells.
  rewrite Hblank, Hrange. simp_cells.
  destruct reply as [res|e]; [|reflexivity].
  read_body res; [|reflexivity].
  destruct (ok rb); simp_cells; [|reflexivity].
  destruct (toFeedback rb); simp_cells; [reflexivity|].
  destruct (template (fallback_raw rb)); reflexivity.
Qed.

Lemma guess_feedback (w : World) (res : Response) (fb : Feedback) :
  valid_input (value (state w)) = true ->
  interpret res = Return (Feedback_of fb) ->
  state (step w (Submit_guess (Responds res))) =
    {| started := started (state w); value := EmptyString;
       error := EmptyString;
       msg := labelFor fb ++ ". Total guess "
                ++ JsString.decimal (tries (state w) + 1);
       tries := tries (state w) + 1; loading := false;
       finished := is_CORRECT (Some fb) |}.
Proof.
  intros H Hi. split_valid H. unfold_handlers. simp_cells.
  rewrite Hblank, Hrange. simp_cells.
  read_body res; [|discriminate].
  destruct (ok rb); simp_cells; [|discriminate].
  destruct (toFeedback rb) as [fb'|]; [|discriminate].
  injection Hi as ->. reflexivity.
Qed.

Lemma guess_message (w : World) (res : Response) (raw : jsvalue) :
  valid_input (value (state w)) = true ->
  interpret res = Return (Message_of raw) ->
  state (step w (Submit_guess (Responds res))) =
    match template raw with
    | Return t =>
        {| started := started (state w); value := EmptyString;
           error := EmptyString;
           msg := t ++ ". Total guess "
                    ++ JsString.decimal (tries (state w) + 1);
           tries := tries (state w) + 1; loading := false;
           finished := false |}
    | Throw e =>
        {| started := started (state w); value := value (state w);
           error := message_or "Guess failed" e; msg := EmptyString;
           tries := tries (state w) + 1; loading := false;
           finished := false |}
    end.
Proof.
  intros H Hi. split_valid H. unfold_handlers. simp_cells.
  rewrite Hblank, Hrange. simp_cells.
  read_body res; [|discriminate].
  destruct (ok rb); simp_cells; [|discriminate].
  destruct (toFeedback rb) as [fb'|]; [discriminate|].
  injection Hi as <-. cbn [is_CORRECT].
  destruct (template (fallback_raw rb)); reflexivity.
Qed.

Lemma guess_error (w : World) (res : Response) (t : string) :
  valid_input (value (state w)) = true ->
  interpret res = Return (Error_of t) ->
  state (step w (Submit_guess (Responds res))) =
    {| started := started (state w); value := value (state w);
       error := t; msg := EmptyString; tries := tries (state w);
       loading := false; finished := finished (state w) |}.
Proof.
  intros H Hi. split_valid H. unfold_handlers. simp_cells.
  rewrite Hblank, Hrange. simp_cells.
  read_body res; [|discriminate].
  destruct (ok rb); simp_cells.
  - destruct (toFeedback rb); discriminate.
  - injection Hi as <-. reflexivity.
Qed.

(** The request fails ([fetch] is rejected) or [readBody] is. *)
Lemma guess_thrown (w : World) (reply : Reply) (e : exn) :
  valid_input (value (state w)) = true ->
  match reply with
  | Responds res => interpret res = Throw e
  | Rejects e' => e' = e
  end ->
  state (step w (Submit_guess reply)) =
    {| started := started (state w); value := value (state w);
       error := message_or "Guess failed" e; msg := EmptyString;
       tries := tries (state w); loading := false;
       finished := finished (state w) |}.
Proof.
  intros H Hi. split_valid H. unfold_handlers. simp_cells.
  rewrite Hblank, Hrange. simp_cells.
  destruct reply as [res|e'].
  - read_body res; [discriminate|]. injection Hi as ->. reflexivity.
  - subst e'. reflexivity.
Qed.

Lemma start_calls (w : World) (reply : Reply) :
  calls (step w (Click_start reply)) =
    (calls w ++
     [{| request := start_request;
         during :=
           {| started := started (state w); value := value (state w);
              error := EmptyString; msg := EmptyString;
              tries := tries (state w); loading := true;
              finished := finished (state w) |} |}])%list.
Proof.
  unfold_handlers. simp_cells.
  destruct reply as [res|e]; [|reflexivity].
  read_body res; [|reflexivity].
  destruct (ok rb); reflexivity.
Qed.

Lemma start_state (w : World) (reply : Reply) :
  state (step w (Click_start reply)) =
    if succeeds reply then
      {| started := true; value := EmptyString; error := EmptyString;
         msg := EmptyString; tries := 0; loading := false;
         finished := false |}
    else
      {| started := started (state w); value := value (state w);
         error := failure_text "Failed to start" reply;
         msg := EmptyString; tries := tries (state w); loading := false;
         finished := finished (state w) |}.
Proof.
  unfold failure_text. unfold_handlers. simp_cells.
  destruct reply as [res|e]; [|reflexivity].
  read_body res; [|reflexivity].
  destruct (ok rb); reflexivity.
Qed.

Lemma reset_calls (w : World) (reply : Reply) :
  calls (step w (Click_reset reply)) =
    (calls w ++
     [{| request := reset_request;
         during :=
           {| started := started (state w); value := value (state w);
              error := EmptyString; msg := msg (state w);
              tries := tries (state w); loading := loading (state w);
              finished := finished (state w) |} |}])%list.
Proof.
  unfold_handlers. simp_cells.
  destruct reply as [res|e]; [|reflexivity].
  read_body res; [|reflexivity].
  destruct (ok rb); reflexivity.
Qed.

Lemma reset_state (w : World) (reply : Reply) :
  state (step w (Click_reset reply)) =
    if succeeds reply then
      {| started := started (state w); value := EmptyString;
         error := EmptyString; msg := "Game reset. Counter set to 0.";
         tries := 0; loading := loading (state w); finished := false |}
    else
      {| started := started (state w); value := value (state w);
         error := failure_text "Failed to reset" reply;
         msg := msg (state w); tries := tries (state w);
         loading := loading (state w); finished := finished (state w) |}.
Proof.
  unfold failure_text. unfold_handlers. simp_cells.
  destruct reply as [res|e]; [|reflexivity].
  read_body res; [|reflexivity].
  destruct (ok rb); reflexivity.
Qed.

(** What a guess does to the cells, whatever the reply. *)
Lemma guess_state_cases (w : World) (reply : Reply) :
  valid_input (value (state w)) = true ->
  (classified reply = false /\
   tries (state (step w (Submit_guess reply))) = tries (state w) /\
   finished (state (step w (Submit_guess reply))) = finished (state w) /\
   msg (state (step w (Submit_guess reply))) = EmptyString) \/
  (classified reply = true /\
   tries (state (step w (Submit_guess reply))) = (tries (state w) + 1)%N /\
   exists res,
     reply = Responds res /\
     ((exists fb, interpret res = Return (Feedback_of fb) /\
                  finished (state (step w (Submit_guess reply))) = is_CORRECT (Some fb))
      \/
      (exists raw, interpret res = Return (Message_of raw) /\
                   finished (state (step w (Submit_guess reply))) = false))).
Proof.
  intros Hv. destruct reply as [res|e].
  - destruct (interpret res) as [[fb|raw|t]|e] eqn:Hi.
    + right. rewrite (guess_feedback w res fb Hv Hi).
      unfold classified. rewrite Hi. simp_cells. repeat split.
      exists res. split; [reflexivity|]. left. now exists fb.
    + right. rewrite (guess_message w res raw Hv Hi).
      unfold classified. rewrite Hi.
      destruct (template raw); simp_cells; repeat split;
        exists res; (split; [reflexivity|]); right; now exists raw.
    + left. rewrite (guess_error w res t Hv Hi).
      unfold classified. rewrite Hi. now simp_cells.
    + left. rewrite (guess_thrown w (Responds res) e Hv Hi).
      unfold classified. rewrite Hi. now simp_cells.
  - left. rewrite (guess_thrown w (Rejects e) e Hv eq_refl). now simp_cells.
Qed.

Lemma guess_loading (w : World) (reply : Reply) :
  valid_input (value (state w)) = true ->
  loading (state (step w (Submit_guess reply))) = false.
Proof.
  intros Hv. destruct reply as [res|e].
  - destruct (interpret res) as [[fb|raw|t]|e] eqn:Hi.
    + now rewrite (guess_feedback w res fb Hv Hi).
    + rewrite (guess_message w res raw Hv Hi). now destruct (template raw).
    + now rewrite (guess_error w res t Hv Hi).
    + now rewrite (guess_thrown w (Responds res) e Hv Hi).
  - now rewrite (guess_thrown w (Rejects e) e Hv eq_refl).
Qed.

Lemma run_snoc (w : World) (intents : list Intent) (i : Intent) :
  run w (intents ++ [i]) = step (run w intents) i.
Proof. unfold run. now rewrite fold_left_app. Qed.

Lemma all_guessable_sent_as_typed : forallb sent_as_typed guessable = true.
Proof. vm_compute. reflexivity. Qed.

Lemma in_guessable (n : N) : (n <= 1000)%N -> In n guessable.
Proof.
  intros Hn. unfold guessable. rewrite <- (N2Nat.id n).
  apply in_map, in_seq. lia.
Qed.

Lemma decimal_input_sent (n : N) :
  (n <= 1000)%N ->
  valid_input (JsString.decimal n) = true /\
  stringify_number (JsNumber.Number (JsString.decimal n)) = number_payload n.
Proof.
  intros Hn.
  pose proof (proj1 (forallb_forall _ _) all_guessable_sent_as_typed n
                (in_guessable n Hn)) as H.
  unfold sent_as_typed in H. apply andb_true_iff in H as [Hv Hs].
  split; [exact Hv|]. now apply String.eqb_eq.
Qed.

(** ** The claims about a guess *)

(** [submitGuess] is its part up to the request followed by its part
    from the reply on, with nothing in between. *)
Lemma submitGuess_in_two_parts (reply : Reply) (w : World) :
  submitGuess reply w =
    match submitGuess_send w with
    | (Return (Some seen), w') => submitGuess_receive seen reply w'
    | (Return None, w') => (Return tt, w')
    | (Throw e, w') => (Throw e, w')
    end.
Proof.
  unfold submitGuess, submitGuess_send, submitGuess_receive, rendered,
    try_finally, try_catch, bind, ret, throw, fetch, send, arrived,
    await_readBody, setError, setMsg, setLoading, update.
  unfold lift. simp_cells.
  destruct (isBlank (value (state w))); [reflexivity|].
  destruct (out_of_range (JsNumber.Number (value (state w))));
    [reflexivity|].
  simp_cells. destruct reply as [res|e]; reflexivity.
Qed.

(** With no guess waiting, Enter followed at once by the reply is the
    key press of [dispatch]. *)
Lemma enter_then_reply (w : World) (reply : Reply) :
  world (play {| world := w; awaiting := [] |} [Key "Enter"; Arrive 0 reply])
    = dispatch w (Key_down "Enter" reply).
Proof.
  unfold play, dispatch. cbn [fold_left]. unfold move. cbn [world awaiting].
  destruct (guess_form (render (state w))); [|reflexivity].
  unfold onKeyDown, onKeyDown_send, rendered, bind, ret. cbn [fst snd].
  destruct (String.eqb "Enter" "Enter" && negb (isBlank (value (state w))));
    [|reflexivity].
  rewrite (submitGuess_in_two_parts reply w).
  destruct (submitGuess_send w) as [[[seen|]|e] w']; reflexivity.
Qed.

(** C3, where the code departs from it: with 500 typed, Enter is pressed
    twice before any reply (the key is not held back while [loading] is
    set, as the button is), so two guesses are sent; both are answered
    with the feedback TOO_LOW, and [tries] is 1 after the first reply and
    still 1 after the second.  Each handler writes the [tries] of its own
    render plus one, so the second feedback adds nothing and shows the
    count 1 again. *)
Theorem C3_overlapping_guesses_count_once :
  map (fun c => payload (request c)) (calls (world entered_twice)) =
    [None; Some (number_payload 500); Some (number_payload 500)] /\
  awaiting entered_twice = [0%N; 0%N] /\
  interpret res_too_low = Return (Feedback_of TOO_LOW) /\
  tries (state (world answered_low_once)) = 1%N /\
  msg (state (world answered_low_once)) = "Too Low. Total guess 1" /\
  tries (state (world answered_low_twice)) = 1%N /\
  msg (state (world answered_low_twice)) = "Too Low. Total guess 1" /\
  awaiting answered_low_twice = [].
Proof. repeat split. Qed.

(** C4: a guess that passes the checks and whose response is taken as an
    error leaves [tries] as it was, sets [error] to the error text and
    shows no message; and whenever the reply is not taken as a feedback
    or a message (an error response, a rejected request, a rejected
    read), [tries] is left as it was. *)
Theorem C4_error_guess (w : World) :
  valid_input (value (state w)) = true ->
  (forall res t,
      interpret res = Return (Error_of t) ->
      tries (state (step w (Submit_guess (Responds res)))) = tries (state w) /\
      error (state (step w (Submit_guess (Responds res)))) = t /\
      msg (state (step w (Submit_guess (Responds res)))) = EmptyString) /\
  (forall reply,
      classified reply = false ->
      tries (state (step w (Submit_guess reply))) = tries (state w) /\
      msg (state (step w (Submit_guess reply))) = EmptyString) /\
  interpret res_session_expired = Return (Error_of "session expired").
Proof.
  intros Hv. split; [|split; [|reflexivity]].
  - intros res t Hi. rewrite (guess_error w res t Hv Hi). now simp_cells.
  - intros reply Hc.
    destruct (guess_state_cases w reply Hv) as [[_ [Ht [_ Hm]]]|[Hc' _]].
    + now split.
    + congruence.
Qed.

Lemma C4_error_guess_witness :
  tries (state (step low_then_typed_250
                  (Submit_guess (Responds res_session_expired)))) =
    tries (state low_then_typed_250) /\
  error (state (step low_then_typed_250
                  (Submit_guess (Responds res_session_expired)))) =
    "session expired" /\
  msg (state (step low_then_typed_250
                (Submit_guess (Responds res_session_expired)))) = EmptyString.
Proof.
  exact (proj1 (C4_error_guess low_then_typed_250 eq_refl)
           res_session_expired "session expired" eq_refl).
Defined.

(** C5, where the code departs from it: for the status 500 with a JSON
    content type and a body that is not JSON, [readBody] does not resolve
    to an error outcome.  The parse failure is swallowed, but the body
    has been read, so the second read ([text()]) is rejected and so is
    [readBody]. *)
Theorem C5_readBody_rejected :
  readBody res_unparsable_error false =
    (Throw (Error body_used_message), true) /\
  interpret res_unparsable_error = Throw (Error body_used_message) /\
  error (state (step typed_500 (Submit_guess (Responds res_unparsable_error)))) =
    body_used_message.
Proof. repeat split. Qed.

(** C6, where the code departs from it: after a guess has shown its
    message, a reset that fails sets [error] and leaves the message, so
    both are shown; the reset request went out with the message still
    in place. *)
Theorem C6_failed_reset_keeps_message :
  reachable (step guessed_low (Click_reset (Responds res_session_expired))) /\
  msg (state (step guessed_low (Click_reset (Responds res_session_expired)))) =
    "Too Low. Total guess 1" /\
  error (state (step guessed_low (Click_reset (Responds res_session_expired)))) =
    "session expired" /\
  map (fun c => msg (during c))
      (calls (step guessed_low (Click_reset (Responds res_session_expired)))) =
    [EmptyString; EmptyString; "Too Low. Total guess 1"].
Proof.
  split; [|repeat split].
  exists [Click_start (Responds res_empty_object); Type_value "500";
          Submit_guess (Responds res_too_low);
          Click_reset (Responds res_session_expired)].
  reflexivity.
Qed.

(** C7 as the code has it: the checks are made on the binary64 number
    [Number(value)], not on the text.  An input that is blank, or whose
    number is not an integer, or is below 0 or above 1000, issues no
    request, sets [error] to one of the two validation texts and leaves
    [tries] as it was; an input whose number is an integer from 0 to 1000
    issues exactly one request, the POST of that number; and every
    integer from 0 to 1000, typed in decimal, passes and is sent as
    [{"number":n}]. *)
Theorem C7_validation_gates_transport (w : World) (reply : Reply) :
  (isBlank (value (state w)) = true \/
   JsNumber.isInteger (JsNumber.Number (value (state w))) = false \/
   JsNumber.ltb (JsNumber.Number (value (state w))) JsNumber.zero = true \/
   JsNumber.ltb (JsNumber.of_Z 1000) (JsNumber.Number (value (state w))) = true ->
   calls (step w (Submit_guess reply)) = calls w /\
   (error (state (step w (Submit_guess reply))) = "Please enter a number" \/
    error (state (step w (Submit_guess reply))) =
      "Enter an integer between 0 and 1000") /\
   tries (state (step w (Submit_guess reply))) = tries (state w)) /\
  (valid_input (value (state w)) = true ->
   calls (step w (Submit_guess reply)) =
     (calls w ++
      [{| request := guess_request (JsNumber.Number (value (state w)));
          during :=
            {| started := started (state w); value := value (state w);
               error := EmptyString; msg := EmptyString;
               tries := tries (state w); loading := true;
               finished := finished (state w) |} |}])%list) /\
  (forall n : N,
      (n <= 1000)%N ->
      value (state w) = JsString.decimal n ->
      exists c,
        calls (step w (Submit_guess reply)) = (calls w ++ [c])%list /\
        url (request c) = "/api" /\ method (request c) = "POST" /\
        payload (request c) = Some (number_payload n)).
Proof.
  split; [|split].
  - intros H.
    assert (Hv : valid_input (value (state w)) = false).
    { unfold valid_input, out_of_range.
      destruct H as [-> | [-> | [-> | ->]]]; cbn;
        rewrite ?orb_true_r, ?andb_false_r; reflexivity. }
    rewrite (guess_invalid w reply Hv). simp_cells.
    split; [reflexivity|]. split; [|reflexivity].
    destruct (isBlank (value (state w))); [now left|now right].
  - apply guess_valid_calls.
  - intros n Hn Hval.
    destruct (decimal_input_sent n Hn) as [Hv Hs].
    rewrite <- Hval in Hv, Hs.
    eexists. split; [exact (guess_valid_calls w reply Hv)|].
    cbn [request guess_request url method payload].
    now rewrite Hs.
Qed.

Lemma C7_validation_gates_transport_witness :
  calls (step (step typed_500 (Type_value "12.5"))
              (Submit_guess (Responds res_too_low))) =
    calls (step typed_500 (Type_value "12.5")) /\
  exists c,
    calls (step typed_500 (Submit_guess (Responds res_too_low))) =
      (calls typed_500 ++ [c])%list /\
    payload (request c) = Some (number_payload 500).
Proof.
  split.
  - exact (proj1 (proj1 (C7_validation_gates_transport
                           (step typed_500 (Type_value "12.5"))
                           (Responds res_too_low))
                    (or_intror (or_introl eq_refl)))).
  - destruct (proj2 (proj2 (C7_validation_gates_transport
                              typed_500 (Responds res_too_low)))
                500%N ltac:(vm_compute; discriminate) eq_refl)
      as [c [Hc [_ [_ Hp]]]].
    exists c. split; [exact Hc|exact Hp].
Defined.

(** C7 fails as stated: the text 1000.0000000000000001 denotes
    10000000000000000001 / 10^16, which is above 1000 and not an integer;
    its number is the nearest binary64 value, 1000, so the checks pass
    and 1000 is posted. *)
Lemma C7_counterexample :
  JsNumber.Number "1000.0000000000000001" =
    JsNumber.scale10 false 10000000000000000001 (-16) /\
  (1000 * 10 ^ 16 < 10000000000000000001)%Z /\
  (10000000000000000001 mod 10 ^ 16 = 1)%Z /\
  valid_input (value (state typed_above_1000)) = true /\
  map (fun c => payload (request c))
      (calls (step typed_above_1000 (Submit_guess (Responds res_too_low)))) =
    [None; Some (number_payload 1000)].
Proof. repeat split. Qed.

(** ** The claims about sessions *)

Lemma type_value_state (w : World) (s : string) :
  finished (state (step w (Type_value s))) = finished (state w) /\
  tries (state (step w (Type_value s))) = tries (state w).
Proof. now unfold_handlers. Qed.

(** A session is finished only through a guess taken as CORRECT. *)
Lemma finished_origin (intents : list Intent) :
  finished (state (run boot intents)) = true ->
  exists pre res post,
    intents = (pre ++ Submit_guess (Responds res) :: post)%list /\
    valid_input (value (state (run boot pre))) = true /\
    interpret res = Return (Feedback_of CORRECT).
Proof.
  induction intents as [|i intents IH] using rev_ind; [discriminate|].
  rewrite run_snoc. set (w := run boot intents) in *. intros Hfin.
  assert (Hkeep : finished (state w) = true ->
                  exists pre res post,
                    (intents ++ [i])%list
                      = (pre ++ Submit_guess (Responds res) :: post)%list /\
                    valid_input (value (state (run boot pre))) = true /\
                    interpret res = Return (Feedback_of CORRECT)).
  { intros H. destruct (IH H) as [pre [res [post [-> [Hv Hi]]]]].
    exists pre, res, (post ++ [i])%list.
    rewrite <- app_assoc. now split. }
  destruct i as [s|reply|reply|reply].
  - apply Hkeep. now rewrite <- (proj1 (type_value_state w s)).
  - rewrite start_state in Hfin.
    destruct (succeeds reply); [discriminate|]. now apply Hkeep.
  - rewrite reset_state in Hfin.
    destruct (succeeds reply); [discriminate|]. now apply Hkeep.
  - destruct (valid_input (value (state w))) eqn:Hv.
    + destruct (guess_state_cases w reply Hv)
        as [[_ [_ [Hf _]]]|[_ [_ [res [-> [[fb [Hi Hf]]|[raw [_ Hf]]]]]]]].
      * apply Hkeep. congruence.
      * rewrite Hf in Hfin.
        destruct fb; try discriminate.
        exists intents, res, []. now split.
      * congruence.
    + rewrite (guess_invalid w reply Hv) in Hfin. now apply Hkeep.
Qed.

(** C8, where the code departs from it: with 500 typed, Enter is pressed
    twice before any reply, so two guesses wait; the later one is
    answered CORRECT, then the earlier one TOO_HIGH.  Both replies are
    taken as a feedback, and [tries], 0 before, is 1 after both: one
    increment for two outcomes, each handler writing the [tries] of its
    own render plus one. *)
Theorem C8_overlapping_guesses_lose_count :
  awaiting entered_twice = [0%N; 0%N] /\
  tries (state (world entered_twice)) = 0%N /\
  classified (Responds res_correct) = true /\
  classified (Responds res_too_high) = true /\
  tries (state (world answered_correct_then_high)) = 1%N /\
  msg (state (world answered_correct_then_high)) = "Too High. Total guess 1" /\
  finished (state (world answered_correct_then_high)) = false /\
  awaiting answered_correct_then_high = [].
Proof. repeat split. Qed.

(** A reset that fails on a finished session leaves it finished. *)
Example failed_reset_keeps_finished :
  reachable won /\
  finished (state won) = true /\
  finished (state (step won (Click_reset (Responds res_session_expired)))) = true.
Proof.
  split; [|split; reflexivity].
  exists [Click_start (Responds res_empty_object); Type_value "375";
          Submit_guess (Responds res_correct)].
  reflexivity.
Qed.

(** C9: a start, and a guess that passes the checks, issue their request
    with [loading] set and end with [loading] cleared, whatever the
    reply: a response read as ok or as an error, a rejected request or a
    rejected read. *)
Theorem C9_loading_scoped (w : World) (reply : Reply) :
  (loading (state (step w (Click_start reply))) = false /\
   exists c,
     calls (step w (Click_start reply)) = (calls w ++ [c])%list /\
     request c = start_request /\ loading (during c) = true) /\
  (valid_input (value (state w)) = true ->
   loading (state (step w (Submit_guess reply))) = false /\
   exists c,
     calls (step w (Submit_guess reply)) = (calls w ++ [c])%list /\
     request c = guess_request (JsNumber.Number (value (state w))) /\
     loading (during c) = true).
Proof.
  split.
  - split.
    + rewrite start_state. now destruct (succeeds reply).
    + eexists. split; [apply start_calls|]. now split.
  - intros Hv. split; [now apply guess_loading|].
    eexists. split; [now apply guess_valid_calls|]. now split.
Qed.

Lemma C9_loading_scoped_witness :
  loading (state (step typed_500 (Submit_guess (Rejects (Error "Failed to fetch")))))
    = false.
Proof.
  exact (proj1 (proj2 (C9_loading_scoped
                         typed_500 (Rejects (Error "Failed to fetch")))
                  eq_refl)).
Defined.

(** C10: a guess whose reply is taken as a feedback or a message sets
    [finished] to whether the feedback is CORRECT, whatever it was; so on
    a finished session a feedback other than CORRECT, or a message, sets
    [finished] back to false, with no start and no reset. *)
Theorem C10_finished_overwritten (w : World) (res : Response) :
  valid_input (value (state w)) = true ->
  finished (state w) = true ->
  (forall fb,
      interpret res = Return (Feedback_of fb) ->
      finished (state (step w (Submit_guess (Responds res)))) =
        match fb with CORRECT => true | _ => false end) /\
  (forall raw,
      interpret res = Return (Message_of raw) ->
      finished (state (step w (Submit_guess (Responds res)))) = false).
Proof.
  intros Hv _. split.
  - intros fb Hi. now rewrite (guess_feedback w res fb Hv Hi).
  - intros raw Hi. rewrite (guess_message w res raw Hv Hi).
    now destruct (template raw).
Qed.

Lemma C10_finished_overwritten_witness :
  reachable won_then_typed /\
  finished (state won_then_typed) = true /\
  finished (state (step won_then_typed (Submit_guess (Responds res_too_low)))) = false /\
  finished (state (step won_then_typed (Submit_guess (Responds res_empty_object)))) = false.
Proof.
  split; [|split; [reflexivity|split]].
  - exists [Click_start (Responds res_empty_object); Type_value "375";
            Submit_guess (Responds res_correct); Type_value "10"].
    reflexivity.
  - exact (proj1 (C10_finished_overwritten won_then_typed res_too_low
                    eq_refl eq_refl) TOO_LOW eq_refl).
  - exact (proj2 (C10_finished_overwritten won_then_typed res_empty_object
                    eq_refl eq_refl) (Some (JString "Submitted.")) eq_refl).
Defined.

(** ** Worked examples *)

Example number_of_plain_digits :
  JsNumber.Number " 375 " = JsNumber.of_Z 375 /\
  JsNumber.Number "1e3" = JsNumber.of_Z 1000 /\
  JsNumber.Number "0x1F" = JsNumber.of_Z 31.
Proof. repeat split. Qed.

Example inputs_turned_down :
  map valid_input
      [EmptyString; "   "; "abc"; "12.5"; "-1"; "1001"; "1e4"; "Infinity"]
  = [false; false; false; false; false; false; false; false].
Proof. reflexivity. Qed.

Example inputs_let_through :
  map valid_input ["0"; "1000"; " 7 "; "5.0"; "1e3"; "0x10"; "-0"]
  = [true; true; true; true; true; true; true].
Proof. reflexivity. Qed.

(** An empty body with a JSON content type and status 200 is a message,
    [Submitted.], and counts as a guess. *)
Example empty_body_is_submitted :
  interpret res_empty_json = Return (Message_of (Some (JString "Submitted."))) /\
  msg (state (step typed_500 (Submit_guess (Responds res_empty_json)))) =
    "Submitted.. Total guess 1" /\
  tries (state (step typed_500 (Submit_guess (Responds res_empty_json)))) = 1%N.
Proof. repeat split. Qed.

(** A plain text body CORRECT finishes the session. *)
Example plain_text_correct :
  interpret res_plain_correct = Return (Feedback_of CORRECT) /\
  finished (state (step typed_500 (Submit_guess (Responds res_plain_correct))))
    = true /\
  msg (state (step typed_500 (Submit_guess (Responds res_plain_correct)))) =
    "Correct. Total guess 1".
Proof. repeat split. Qed.

(** Three guesses, the third one correct. *)
Example three_guesses :
  state (run boot [Click_start (Responds res_empty_object);
                   Type_value "500"; Submit_guess (Responds res_too_high);
                   Type_value "250"; Submit_guess (Responds res_too_low);
                   Type_value "375"; Submit_guess (Responds res_correct)]) =
    {| started := true; value := EmptyString; error := EmptyString;
       msg := "Correct. Total guess 3"; tries := 3; loading := false;
       finished := true |}.
Proof. reflexivity. Qed.

(** Two resets in a row, both succeeding, leave the count at 0. *)
Example reset_twice :
  tries (state (step guessed_low (Click_reset (Responds res_empty_object)))) = 0%N /\
  tries (state (step (step guessed_low
                        (Click_reset (Responds res_empty_object)))
                  (Click_reset (Responds res_empty_object)))) = 0%N.
Proof. repeat split. Qed.

(** The JSON body [null] on an error response is rejected like a body
    that does not parse. *)
Example null_error_body_rejected :
  interpret res_null_error = Throw (Error body_used_message).
Proof. reflexivity. Qed.

(** * Further properties *)

(** ** What the checks of a guess let through *)

Section Rounding.

Local Open Scope Z_scope.

Lemma shr_1_digits (s : shr_record) :
  Zdigits2 (shr_m (shr_1 s)) = Z.max 0 (Zdigits2 (shr_m s) - 1).
Proof.
  destruct s as [m r st]. destruct m as [|p|p]; [reflexivity| |];
    destruct p; cbn [shr_1 shr_m Zdigits2 digits2_pos];
    rewrite ?Pos2Z.inj_succ; lia.
Qed.

Lemma iter_shr_1_digits (p : positive) (s : shr_record) :
  Zdigits2 (shr_m (iter_pos shr_1 p s)) =
    Z.max 0 (Zdigits2 (shr_m s) - Zpos p).
Proof.
  revert s. induction p as [p IH|p IH|]; intros s; cbn [iter_pos].
  - rewrite !IH, shr_1_digits. lia.
  - rewrite !IH. lia.
  - apply shr_1_digits.
Qed.

Lemma shr_record_of_loc_m (m : Z) (l : location) :
  shr_m (shr_record_of_loc m l) = m.
Proof. destruct l as [|[]]; reflexivity. Qed.

Lemma shr_fexp_digits (m e : Z) (l : location) :
  Zdigits2 (shr_m (fst (shr_fexp JsNumber.prec JsNumber.emax m e l)))
    <= JsNumber.prec.
Proof.
  unfold shr_fexp, shr, fexp, emin, JsNumber.prec, JsNumber.emax.
  destruct (Z.max (Zdigits2 m + e - 53) (3 - 1024 - 53) - e) as [|p|p] eqn:E;
    cbn [fst]; rewrite ?iter_shr_1_digits, shr_record_of_loc_m; lia.
Qed.

Lemma digits2_pos_bound (m : positive) : Zpos m < 2 ^ Zpos (digits2_pos m).
Proof.
  induction m as [m IH|m IH|]; cbn [digits2_pos];
    rewrite ?Pos2Z.inj_succ, ?Z.pow_succ_r by lia; lia.
Qed.

Lemma binary_round_aux_fits (sx : bool) (mx ex : Z) (lx : location) :
  mantissa_fits (binary_round_aux JsNumber.prec JsNumber.emax sx mx ex lx).
Proof.
  unfold binary_round_aux.
  destruct (shr_fexp JsNumber.prec JsNumber.emax mx ex lx) as [mrs' e'].
  pose proof (shr_fexp_digits
                (round_nearest_even (shr_m mrs') (loc_of_shr_record mrs'))
                e' loc_Exact) as H.
  destruct (shr_fexp JsNumber.prec JsNumber.emax _ e' loc_Exact) as [mrs'' e''].
  cbn [fst] in H.
  destruct (shr_m mrs'') as [|m|m]; [exact I| |exact I].
  destruct (e'' <=? JsNumber.emax - JsNumber.prec); [|exact I].
  cbn [Zdigits2 mantissa_fits] in *. pose proof (digits2_pos_bound m) as Hm.
  apply Z.lt_le_trans with (1 := Hm).
  apply Z.pow_le_mono_r; [lia|exact H].
Qed.

Lemma of_ratio_fits (neg : bool) (num den : Z) :
  mantissa_fits (JsNumber.of_ratio neg num den).
Proof.
  unfold JsNumber.of_ratio. destruct num as [|n|n]; cbn; trivial.
  destruct den as [|d|d]; cbn; trivial.
  unfold SFdiv.
  destruct (SFdiv_core_binary JsNumber.prec JsNumber.emax (Z.pos n) 0 (Z.pos d) 0)
    as [[mz ez] lz].
  apply binary_round_aux_fits.
Qed.

Lemma Number_fits (s : string) : mantissa_fits (JsNumber.Number s).
Proof.
  assert (Hnd : forall b r, mantissa_fits (JsNumber.non_decimal b r)).
  { intros b r. unfold JsNumber.non_decimal.
    destruct (JsNumber.span_digits b r) as [[|c ds] [|c' r']]; cbn; trivial.
    apply of_ratio_fits. }
  assert (Hud : forall neg u, mantissa_fits (JsNumber.unsigned_decimal neg u)).
  { intros neg u. unfold JsNumber.unsigned_decimal.
    destruct (String.eqb u "Infinity"); cbn; trivial.
    destruct (JsNumber.span_digits 10 u) as [int rest].
    match goal with |- context [let '(_, _) := ?x in _] => destruct x as [frac rest'] end.
    destruct (JsString.isEmpty int && JsString.isEmpty frac); cbn; trivial.
    destruct (JsNumber.exponent_part rest'); cbn; trivial.
    unfold JsNumber.scale10.
    match goal with |- context [if ?c then _ else _] => destruct c end;
      apply of_ratio_fits. }
  unfold JsNumber.Number.
  repeat match goal with
         | |- mantissa_fits (JsNumber.non_decimal _ _) => apply Hnd
         | |- mantissa_fits (JsNumber.unsigned_decimal _ _) => apply Hud
         | |- mantissa_fits (let '(_, _) := ?x in _) => destruct x
         | |- mantissa_fits (match ?x with _ => _ end) => destruct x
         | |- mantissa_fits JsNumber.zero => exact I
         end.
Qed.

Lemma thousand : JsNumber.of_Z 1000 = S754_finite false 8796093022208000 (-43).
Proof. reflexivity. Qed.

Lemma in_range_integer (n : JsNumber.number) :
  mantissa_fits n ->
  out_of_range n = false ->
  0 <= JsNumber.to_Z n <= 1000.
Proof.
  unfold out_of_range. intros Hfit H.
  apply orb_false_iff in H as [H Hhigh].
  apply orb_false_iff in H as [Hint Hlow].
  apply negb_false_iff in Hint. rewrite thousand in Hhigh.
  destruct n as [s|s| |s m e]; try discriminate; [cbn; lia|].
  destruct s; [discriminate|].
  unfold JsNumber.ltb, SFltb, SFcompare in Hhigh.
  cbn [mantissa_fits JsNumber.to_Z] in *.
  destruct e as [|p|p]; try discriminate.
  destruct (Z.compare_spec (-43) (Z.neg p)) as [Heq|Hlt|Hgt];
    try discriminate Hhigh.
  - injection Heq as <-.
    change (match (8796093022208000 ?= m)%positive with
            | Lt => true
            | _ => false
            end = false) in Hhigh.
    assert (Hm : Z.pos m <= 8796093022208000).
    { apply Pos2Z.pos_le_pos.
      destruct (8796093022208000 ?= m)%positive eqn:E;
        try discriminate Hhigh.
      - apply Pos.compare_eq in E. subst m. apply Pos.le_refl.
      - apply Pos.compare_gt_iff in E. now apply Pos.lt_le_incl. }
    clear Hint Hlow Hhigh Hfit.
    change (2 ^ Z.pos 43) with 8796093022208.
    split; [apply Z.div_pos; [apply Pos2Z.is_nonneg|reflexivity]|].
    apply Z.div_le_upper_bound; [reflexivity|lia].
  - clear Hint Hlow Hhigh.
    assert (Hp : 2 ^ 44 <= 2 ^ Z.pos p) by (apply Z.pow_le_mono_r; lia).
    change (2 ^ 53) with (17592186044416 * 512) in Hfit.
    change (2 ^ 44) with 17592186044416 in Hp.
    assert (Hpos : 0 < 2 ^ Z.pos p) by lia.
    split; [apply Z.div_pos; [apply Pos2Z.is_nonneg|exact Hpos]|].
    assert (Z.pos m / 2 ^ Z.pos p < 512); [|lia].
    apply Z.div_lt_upper_bound; [exact Hpos|]. lia.
Qed.

End Rounding.

Lemma valid_input_bounds (s : string) :
  valid_input s = true ->
  exists k : N,
    (k <= 1000)%N /\
    JsNumber.to_Z (JsNumber.Number s) = Z.of_N k /\
    guess_request (JsNumber.Number s) = post_of k.
Proof.
  intros H. apply andb_true_iff in H as [_ H]. apply negb_true_iff in H.
  pose proof (in_range_integer _ (Number_fits s) H) as Hk.
  exists (Z.to_N (JsNumber.to_Z (JsNumber.Number s))).
  split; [lia|]. split; [lia|reflexivity].
Qed.

(** X1: whatever is typed, a guess that passes the checks sends exactly
    one request, and it is the POST of an integer from 0 to 1000, the
    integer the typed text denotes. *)
Theorem guess_sends_integer_in_range (w : World) (reply : Reply) :
  valid_input (value (state w)) = true ->
  exists (k : N) (c : Call),
    (k <= 1000)%N /\
    JsNumber.to_Z (JsNumber.Number (value (state w))) = Z.of_N k /\
    calls (step w (Submit_guess reply)) = (calls w ++ [c])%list /\
    request c = post_of k.
Proof.
  intros Hv. destruct (valid_input_bounds _ Hv) as [k [Hk [Hz Hr]]].
  exists k. eexists. split; [exact Hk|]. split; [exact Hz|].
  split; [exact (guess_valid_calls w reply Hv)|]. exact Hr.
Qed.

Lemma guess_sends_integer_in_range_witness :
  exists (k : N) (c : Call),
    (k <= 1000)%N /\
    JsNumber.to_Z (JsNumber.Number " 37.5e1") = Z.of_N k /\
    calls (step (step typed_500 (Type_value " 37.5e1"))
             (Submit_guess (Responds res_too_low))) =
      (calls (step typed_500 (Type_value " 37.5e1")) ++ [c])%list /\
    request c = post_of k.
Proof.
  exact (guess_sends_integer_in_range
           (step typed_500 (Type_value " 37.5e1"))
           (Responds res_too_low) eq_refl).
Defined.

(** ** Blank input *)

Lemma trimEnd_keeps_head (c : ascii) (s : string) :
  JsString.isWhiteSpace c = false ->
  JsString.isEmpty (JsString.trimEnd (String c s)) = false.
Proof. intros H. cbn [JsString.trimEnd]. now rewrite H. Qed.

(** X2: [isBlank] holds of the strings made of white space only, the
    empty string among them, and of no other. *)
Theorem isBlank_is_all_white (s : string) : isBlank s = all_white s.
Proof.
  unfold isBlank, JsString.trim.
  induction s as [|c s IH]; [reflexivity|].
  cbn [JsString.trimStart all_white].
  destruct (JsString.isWhiteSpace c) eqn:Hc; [exact IH|].
  now apply trimEnd_keeps_head.
Qed.

(** ** When [readBody] resolves and when it is rejected *)

Ltac unfold_readBody :=
  unfold readBody, claims_json, try_catch, or_else, bind, ret, res_json,
    res_text, lift in *.

Lemma readBody_error_unparsable_null (res : Response) (b : Body) :
  Response_ok res = false ->
  claims_json res = true ->
  body res = Some b ->
  json_of b = Some JNull ->
  readBody res false = (Throw (Error body_used_message), true).
Proof.
  unfold readBody, claims_json, try_catch, or_else, bind, ret, res_text,
    res_json, lift.
  intros -> -> -> ->. reflexivity.
Qed.

Lemma readBody_cases (res : Response) :
  (Response_ok res = true /\
   exists rb, fst (readBody res false) = Return rb /\ ok rb = true /\
              err rb = None /\
              (claims_json res = true -> text rb = None) /\
              (claims_json res = false ->
               data rb = None /\
               text rb = Some (JsString.trim (body_text res)))) \/
  (Response_ok res = false /\
   exists t, fst (readBody res false) =
               Return {| ok := false; data := None; text := None;
                         err := Some t |} /\
             ((claims_json res = true /\
               exists b j, body res = Some b /\ json_of b = Some j /\
                           j <> JNull)
              \/ claims_json res = false
              \/ body res = None)) \/
  (Response_ok res = false /\ claims_json res = true /\
   fst (readBody res false) = Throw (Error body_used_message) /\
   exists b, body res = Some b /\
             (json_of b = None \/ json_of b = Some JNull)).
Proof.
  destruct (Response_ok res) eqn:Hok.
  - left. split; [reflexivity|].
    destruct (claims_json res) eqn:Hct.
    + unfold_readBody. rewrite Hok, Hct.
      destruct (body res) as [b|]; [destruct (json_of b)|];
        eexists; (split; [reflexivity|]); cbn; repeat split; discriminate.
    + eexists. split; [exact (readBody_ok_text res Hok Hct)|].
      cbn. repeat split. discriminate.
  - right. destruct (claims_json res) eqn:Hct.
    + destruct (body res) as [b|] eqn:Hb.
      * destruct (json_of b) as [j|] eqn:Hj.
        -- assert (Hnull : j = JNull \/ j <> JNull)
             by (destruct j; (now left) || (right; discriminate)).
           destruct Hnull as [->|Hnull].
           ++ right. split; [reflexivity|]. split; [reflexivity|].
              split; [exact (f_equal fst (readBody_error_unparsable_null
                                            res b Hok Hct Hb Hj))|].
              exists b. split; [reflexivity|now right].
           ++ left. split; [reflexivity|]. eexists.
              split; [exact (f_equal fst (readBody_error_json
                                            res b j Hok Hct Hb Hj Hnull))|].
              left. split; [reflexivity|]. exists b, j. now repeat split.
        -- right. split; [reflexivity|]. split; [reflexivity|].
           split; [exact (f_equal fst (readBody_error_unparsable
                                         res b Hok Hct Hb Hj))|].
           exists b. split; [reflexivity|now left].
      * left. split; [reflexivity|]. eexists.
        split; [exact (readBody_error_no_body res Hok Hb)|]. now right; right.
    + left. split; [reflexivity|]. eexists.
      split; [exact (readBody_error_text res Hok Hct)|]. now right; left.
Qed.

(** X3: whenever [readBody] resolves, its [ok] is [res.ok]; an ok result
    has no [err] and never both [data] and [text]; a result that is not
    ok has an [err] (always a string) and neither [data] nor [text].
    On a 2xx response [readBody] always resolves. *)
Theorem readBody_resolved_shape (res : Response) :
  (forall rb,
      fst (readBody res false) = Return rb ->
      ok rb = Response_ok res /\
      (ok rb = true -> err rb = None /\ (data rb = None \/ text rb = None)) /\
      (ok rb = false ->
       data rb = None /\ text rb = None /\ exists t, err rb = Some t)) /\
  (Response_ok res = true -> exists rb, fst (readBody res false) = Return rb).
Proof.
  destruct (readBody_cases res)
    as [[Hok [rb [Hr [Hb [He [Hj Ht]]]]]]|[[Hok [t [Hr _]]]|[Hok [_ [Hr _]]]]];
    rewrite Hok, Hr.
  - split; [|intros _; now exists rb].
    intros rb' [= <-]. rewrite Hb. split; [reflexivity|].
    split; [|discriminate]. intros _. split; [exact He|].
    destruct (claims_json res);
      [right; now apply Hj|left; now apply Ht].
  - split; [|discriminate]. intros rb' [= <-]. cbn.
    split; [reflexivity|]. split; [discriminate|].
    intros _. repeat split. now exists t.
  - split; discriminate.
Qed.

Lemma readBody_resolved_shape_witness :
  exists rb, fst (readBody res_plain_correct false) = Return rb.
Proof.
  exact (proj2 (readBody_resolved_shape res_plain_correct) eq_refl).
Defined.

(** X4: [readBody] is rejected exactly for a response that is not 2xx,
    says it is JSON, and has a body that does not parse or parses to
    [null]; what is thrown is then the TypeError of the second read. *)
Theorem readBody_rejected_iff (res : Response) :
  ((exists e, fst (readBody res false) = Throw e) <->
   (Response_ok res = false /\ claims_json res = true /\
    exists b, body res = Some b /\
              (json_of b = None \/ json_of b = Some JNull))) /\
  (forall e, fst (readBody res false) = Throw e ->
             e = Error body_used_message).
Proof.
  destruct (readBody_cases res)
    as [[Hok [rb [Hr _]]]|[[Hok [t [Hr Hc]]]|[Hok [Hct [Hr Hb]]]]];
    rewrite Hr.
  - split; [|discriminate]. split; [intros [e H]; discriminate|].
    intros [H _]. congruence.
  - split; [|discriminate]. split; [intros [e H]; discriminate|].
    intros [_ [Hct [b [Hb Hj]]]].
    destruct Hc as [[_ [b' [j [Hb' [Hj' Hn]]]]]|[Hc|Hc]]; try congruence.
    rewrite Hb in Hb'. injection Hb' as <-.
    destruct Hj as [Hj|Hj]; congruence.
  - split; [|now intros e [= <-]].
    split; [now intros _|]. intros _. now eexists.
Qed.

Lemma readBody_rejected_iff_witness :
  exists e, fst (readBody res_null_error false) = Throw e.
Proof.
  apply (proj2 (proj1 (readBody_rejected_iff res_null_error))).
  split; [reflexivity|]. split; [reflexivity|].
  exists {| text_of := "null"; json_of := Some JNull |}.
  split; [reflexivity|]. right. reflexivity.
Defined.

Lemma succeeds_is_ok (res : Response) :
  succeeds (Responds res) = Response_ok res.
Proof.
  unfold succeeds.
  destruct (readBody_cases res)
    as [[Hok [rb [Hr [Hb _]]]]|[[Hok [t [Hr _]]]|[Hok [_ [Hr _]]]]];
    now rewrite Hok, Hr.
Qed.

(** ** Feedback in plain text, and bodies that say nothing *)

Lemma literal_of_string (t : string) (fb : Feedback) :
  literal (Some (JString t)) = Some fb <-> t = feedback_name fb.
Proof.
  split.
  - intros H. apply literal_label in H. now destruct fb; injection H.
  - intros ->. now destruct fb.
Qed.

(** X5: a 2xx response that does not say it is JSON is a feedback exactly
    when its body, trimmed, is one of the three literals, letter for
    letter; the feedback is then the one the literal names. *)
Theorem plain_text_feedback_iff (res : Response) (fb : Feedback) :
  Response_ok res = true ->
  claims_json res = false ->
  (interpret res = Return (Feedback_of fb) <->
   JsString.trim (body_text res) = feedback_name fb).
Proof.
  intros Hok Hct. unfold interpret.
  rewrite (readBody_ok_text res Hok Hct). cbn [ok].
  unfold toFeedback. cbn [data text opt_get if_string option_map coalesce nullish].
  rewrite <- literal_of_string.
  destruct (literal (Some (JString (JsString.trim (body_text res)))))
    as [fb'|]; split; intros H; try discriminate.
  - now injection H as ->.
  - now injection H as ->.
Qed.

Lemma plain_text_feedback_iff_witness :
  interpret res_plain_correct = Return (Feedback_of CORRECT).
Proof.
  exact (proj2 (plain_text_feedback_iff res_plain_correct CORRECT
                  eq_refl eq_refl) eq_refl).
Defined.



(** ** Sessions *)

Lemma type_value_step (w : World) (s : string) :
  step w (Type_value s) =
    {| state := {| started := started (state w); value := s;
                   error := error (state w); msg := msg (state w);
                   tries := tries (state w); loading := loading (state w);
                   finished := finished (state w) |};
       calls := calls w |}.
Proof. reflexivity. Qed.

Lemma run_cons (w : World) (i : Intent) (intents : list Intent) :
  run w (i :: intents) = run (step w i) intents.
Proof. reflexivity. Qed.

(** What a guess never touches, and what it leaves when it fails. *)
Lemma guess_frame (w : World) (reply : Reply) :
  started (state (step w (Submit_guess reply))) = started (state w) /\
  (msg (state (step w (Submit_guess reply))) = EmptyString \/
   error (state (step w (Submit_guess reply))) = EmptyString) /\
  (valid_input (value (state w)) && classified reply = false ->
   value (state (step w (Submit_guess reply))) = value (state w) /\
   tries (state (step w (Submit_guess reply))) = tries (state w) /\
   finished (state (step w (Submit_guess reply))) = finished (state w) /\
   msg (state (step w (Submit_guess reply))) = EmptyString).
Proof.
  destruct (valid_input (value (state w))) eqn:Hv.
  - destruct reply as [res|e].
    + unfold classified.
      destruct (interpret res) as [[fb|raw|t]|e] eqn:Hi.
      * rewrite (guess_feedback w res fb Hv Hi). cbn.
        repeat split; auto; discriminate.
      * rewrite (guess_message w res raw Hv Hi).
        destruct (template raw); cbn; repeat split; auto; discriminate.
      * rewrite (guess_error w res t Hv Hi). cbn. repeat split; auto.
      * rewrite (guess_thrown w (Responds res) e Hv Hi). cbn.
        repeat split; auto.
    + rewrite (guess_thrown w (Rejects e) e Hv eq_refl). cbn.
      repeat split; auto.
  - rewrite (guess_invalid w reply Hv). cbn. repeat split; auto.
Qed.

(** X7: every request the component ever sends is the start, the reset,
    or the POST of an integer from 0 to 1000, all with credentials
    included. *)
Theorem requests_are_known (intents : list Intent) :
  Forall (fun c => known_request (request c) /\
                   credentials (request c) = "include")
         (calls (run boot intents)).
Proof.
  induction intents as [|i intents IH] using rev_ind; [constructor|].
  rewrite run_snoc. set (w := run boot intents) in *.
  destruct i as [s|reply|reply|reply].
  - exact IH.
  - rewrite start_calls. apply Forall_app. split; [exact IH|].
    constructor; [|constructor]. split; [now left|reflexivity].
  - rewrite reset_calls. apply Forall_app. split; [exact IH|].
    constructor; [|constructor]. split; [now right; left|reflexivity].
  - destruct (valid_input (value (state w))) eqn:Hv.
    + rewrite (guess_valid_calls w reply Hv).
      apply Forall_app. split; [exact IH|].
      constructor; [|constructor]. cbn [request].
      destruct (valid_input_bounds _ Hv) as [k [Hk [_ Hr]]].
      rewrite Hr. split; [|reflexivity]. right; right. now exists k.
    + now rewrite (guess_invalid w reply Hv).
Qed.

(** X8: between two handlers [loading] is never set: it is false in
    every state the component can be in. *)
Theorem idle_is_not_loading (intents : list Intent) :
  loading (state (run boot intents)) = false.
Proof.
  induction intents as [|i intents IH] using rev_ind; [reflexivity|].
  rewrite run_snoc. set (w := run boot intents) in *.
  destruct i as [s|reply|reply|reply].
  - exact IH.
  - rewrite start_state. now destruct (succeeds reply).
  - rewrite reset_state. now destruct (succeeds reply).
  - destruct (valid_input (value (state w))) eqn:Hv.
    + now apply guess_loading.
    + now rewrite (guess_invalid w reply Hv).
Qed.

Lemma step_started (w : World) (i : Intent) :
  started (state (step w i)) = started (state w) || is_successful_start i.
Proof.
  destruct i as [s|reply|reply|reply]; cbn [is_successful_start].
  - now rewrite orb_false_r.
  - rewrite start_state.
    destruct (succeeds reply); cbn; now rewrite ?orb_true_r, ?orb_false_r.
  - rewrite reset_state, orb_false_r. now destruct (succeeds reply).
  - rewrite orb_false_r. apply guess_frame.
Qed.

(** X9: the game is started after a run exactly when it was before or
    one of the starts of the run succeeded; nothing ever sets [started]
    back to false. *)
Theorem started_law (w : World) (intents : list Intent) :
  started (state (run w intents)) =
    started (state w) || existsb is_successful_start intents.
Proof.
  revert w. induction intents as [|i intents IH]; intros w.
  - cbn. now rewrite orb_false_r.
  - rewrite run_cons, IH, step_started. cbn [existsb].
    now rewrite orb_assoc.
Qed.

Lemma not_empty_iff (s : string) : s <> EmptyString <-> JsString.isEmpty s = false.
Proof. destruct s; cbn; split; congruence. Qed.

(** X10: when the handlers run one after another, each to its end
    before the next begins, a state in which a message and an error are
    both set is reached only by a reset that failed while a message was
    set, followed by nothing but typing. *)
Theorem both_shown_only_after_failed_reset (intents : list Intent) :
  msg (state (run boot intents)) <> EmptyString ->
  error (state (run boot intents)) <> EmptyString ->
  exists pre reply post,
    intents = (pre ++ Click_reset reply :: post)%list /\
    succeeds reply = false /\
    forallb is_typing post = true /\
    msg (state (run boot pre)) <> EmptyString.
Proof.
  induction intents as [|i intents IH] using rev_ind; [now intros H|].
  rewrite run_snoc. set (w := run boot intents) in *.
  destruct i as [s|reply|reply|reply]; intros Hm He.
  - destruct (IH Hm He) as [pre [reply [post [-> [Hs [Hp Hpre]]]]]].
    exists pre, reply, (post ++ [Type_value s])%list.
    rewrite <- app_assoc. repeat split; auto.
    rewrite forallb_app, Hp. reflexivity.
  - rewrite start_state in Hm. now destruct (succeeds reply).
  - rewrite reset_state in Hm, He.
    destruct (succeeds reply) eqn:Hs; [now cbn in He|].
    exists intents, reply, []. now repeat split.
  - destruct (proj1 (proj2 (guess_frame w reply))); contradiction.
Qed.

Lemma both_shown_only_after_failed_reset_witness :
  exists pre reply post,
    [Click_start (Responds res_empty_object); Type_value "500";
     Submit_guess (Responds res_too_low);
     Click_reset (Responds res_session_expired); Type_value "7"]
      = (pre ++ Click_reset reply :: post)%list /\
    succeeds reply = false /\
    forallb is_typing post = true /\
    msg (state (run boot pre)) <> EmptyString.
Proof.
  exact (both_shown_only_after_failed_reset
           [Click_start (Responds res_empty_object); Type_value "500";
            Submit_guess (Responds res_too_low);
            Click_reset (Responds res_session_expired); Type_value "7"]
           ltac:(discriminate) ltac:(discriminate)).
Defined.

(** X11: a reset that succeeds right after one that succeeded changes
    nothing: the cells are those the first one left. *)
Theorem reset_twice_is_reset_once (w : World) (r1 r2 : Reply) :
  succeeds r1 = true ->
  succeeds r2 = true ->
  state (step (step w (Click_reset r1)) (Click_reset r2)) =
    state (step w (Click_reset r1)).
Proof.
  intros H1 H2. rewrite (reset_state (step w (Click_reset r1)) r2), H2.
  rewrite (reset_state w r1), H1. reflexivity.
Qed.

Lemma reset_twice_is_reset_once_witness :
  state (step (step guessed_low (Click_reset (Responds res_empty_object)))
           (Click_reset (Responds res_too_high))) =
    state (step guessed_low (Click_reset (Responds res_empty_object))).
Proof.
  exact (reset_twice_is_reset_once guessed_low
           (Responds res_empty_object) (Responds res_too_high)
           eq_refl eq_refl).
Defined.

(** X12: a guess that is turned down by the checks, or whose reply is
    not taken as a feedback or a message, leaves the typed value, the
    count, [finished] and [started] as they were and shows no message, so
    the same input can be sent again. *)
Theorem failed_guess_keeps_cells (w : World) (reply : Reply) :
  valid_input (value (state w)) = false \/ classified reply = false ->
  value (state (step w (Submit_guess reply))) = value (state w) /\
  tries (state (step w (Submit_guess reply))) = tries (state w) /\
  finished (state (step w (Submit_guess reply))) = finished (state w) /\
  started (state (step w (Submit_guess reply))) = started (state w) /\
  msg (state (step w (Submit_guess reply))) = EmptyString.
Proof.
  intros H. destruct (guess_frame w reply) as [Hs [_ Hk]].
  assert (Hc : valid_input (value (state w)) && classified reply = false)
    by (destruct H as [-> | ->]; now rewrite ?andb_false_r).
  destruct (Hk Hc) as [Hv [Ht [Hf Hm]]]. now repeat split.
Qed.

Lemma failed_guess_keeps_cells_witness :
  value (state (step typed_500 (Submit_guess (Responds res_unparsable_error))))
    = "500".
Proof.
  exact (proj1 (failed_guess_keeps_cells typed_500
                  (Responds res_unparsable_error) (or_intror eq_refl))).
Defined.

(** X13: a handler extends the list of requests and never rewrites it:
    typing sends nothing, a start and a reset send exactly one request
    each (also when they fail), a guess sends one when it passes the
    checks and none otherwise. *)
Theorem requests_per_intent (w : World) (i : Intent) :
  exists sent,
    calls (step w i) = (calls w ++ sent)%list /\
    List.length sent = requests_of (state w) i.
Proof.
  destruct i as [s|reply|reply|reply]; cbn [requests_of].
  - exists []. now rewrite app_nil_r.
  - eexists. split; [apply start_calls|reflexivity].
  - eexists. split; [apply reset_calls|reflexivity].
  - destruct (valid_input (value (state w))) eqn:Hv.
    + eexists. split; [now apply guess_valid_calls|reflexivity].
    + exists []. now rewrite (guess_invalid w reply Hv), app_nil_r.
Qed.

(** ** Events on the rendered controls *)

Lemma onKeyDown_step (w : World) (key : string) (reply : Reply) :
  snd (onKeyDown key reply w) =
    if String.eqb key "Enter" && negb (isBlank (value (state w)))
    then step w (Submit_guess reply) else w.
Proof.
  unfold onKeyDown, rendered, bind, ret, step, handler.
  now destruct (String.eqb key "Enter" && negb (isBlank (value (state w)))).
Qed.

(** An event runs one handler or none. *)
Lemma dispatch_step (w : World) (e : Event) :
  dispatch w e =
    match e with
    | Change s => if started (state w) then step w (Type_value s) else w
    | Key_down key reply =>
        if started (state w) && String.eqb key "Enter"
           && negb (isBlank (value (state w)))
        then step w (Submit_guess reply) else w
    | Click_start_button reply =>
        if negb (started (state w)) && negb (loading (state w))
        then step w (Click_start reply) else w
    | Click_reset_button reply =>
        if started (state w) then step w (Click_reset reply) else w
    | Click_guess_button reply =>
        if started (state w) && negb (loading (state w))
           && negb (isBlank (value (state w)))
        then step w (Submit_guess reply) else w
    end.
Proof.
  unfold dispatch, render.
  destruct e as [s|key reply|reply|reply|reply];
    cbn [guess_form start_button reset_button];
    destruct (started (state w)); cbn [andb negb guess_disabled];
    try reflexivity.
  - apply onKeyDown_step.
  - now destruct (loading (state w)).
  - now destruct (loading (state w)), (isBlank (value (state w))).
Qed.

Lemma ui_run_snoc (w : World) (events : list Event) (e : Event) :
  ui_run w (events ++ [e]) = dispatch (ui_run w events) e.
Proof. unfold ui_run. now rewrite fold_left_app. Qed.

(** X14: while the input is blank, neither the guess button nor any key
    runs [submitGuess]: the event changes nothing and sends nothing. *)
Theorem blank_is_never_submitted (w : World) (key : string) (reply : Reply) :
  isBlank (value (state w)) = true ->
  dispatch w (Click_guess_button reply) = w /\
  dispatch w (Key_down key reply) = w.
Proof.
  intros H. rewrite !dispatch_step, H. cbn [negb].
  now rewrite !andb_false_r.
Qed.

Lemma blank_is_never_submitted_witness :
  dispatch (step typed_500 (Type_value "  "))
    (Key_down "Enter" (Responds res_too_low)) =
  step typed_500 (Type_value "  ").
Proof.
  exact (proj2 (blank_is_never_submitted
                  (step typed_500 (Type_value "  ")) "Enter"
                  (Responds res_too_low) eq_refl)).
Defined.

(** X15: a start that fails on a game not yet started sets [error], but
    nothing rendered shows it: the tree is the start button alone, as
    before the click. *)
Theorem failed_start_shows_nothing (w : World) (reply : Reply) :
  started (state w) = false ->
  loading (state w) = false ->
  succeeds reply = false ->
  error (state (dispatch w (Click_start_button reply))) =
    failure_text "Failed to start" reply /\
  render (state (dispatch w (Click_start_button reply))) =
    {| reset_button := None; start_button := Some false;
       guess_form := None |} /\
  render (state (dispatch w (Click_start_button reply))) = render (state w).
Proof.
  intros Hs Hl Hf. rewrite dispatch_step, Hs, Hl. cbn [negb andb].
  rewrite start_state, Hf. unfold render. cbn. now rewrite Hs, Hl.
Qed.

Lemma failed_start_shows_nothing_witness :
  error (state (dispatch boot
                  (Click_start_button (Responds res_session_expired)))) =
    "session expired" /\
  render (state (dispatch boot
                   (Click_start_button (Responds res_session_expired)))) =
    render (state boot).
Proof.
  destruct (failed_start_shows_nothing boot (Responds res_session_expired)
              eq_refl eq_refl eq_refl) as [He [_ Hr]].
  split; [exact He|exact Hr].
Defined.

(** X16: while [loading] is set the guess button is disabled and a click
    on it does nothing, but the Enter key still runs [submitGuess]: a
    second request goes out. *)
Theorem enter_ignores_loading (w : World) (reply : Reply) :
  started (state w) = true ->
  loading (state w) = true ->
  valid_input (value (state w)) = true ->
  dispatch w (Click_guess_button reply) = w /\
  exists c,
    calls (dispatch w (Key_down "Enter" reply)) = (calls w ++ [c])%list /\
    request c = guess_request (JsNumber.Number (value (state w))).
Proof.
  intros Hs Hl Hv. rewrite !dispatch_step, Hs, Hl. cbn [negb andb].
  split; [reflexivity|].
  pose proof Hv as Hv'. apply andb_true_iff in Hv' as [Hb _]. rewrite Hb.
  cbn [String.eqb andb]. eexists.
  split; [change (String.eqb "Enter" "Enter") with true; cbn [andb];
          exact (guess_valid_calls w reply Hv)|reflexivity].
Qed.

Lemma enter_ignores_loading_witness :
  dispatch pending_42 (Click_guess_button (Responds res_too_low)) = pending_42 /\
  exists c,
    calls (dispatch pending_42 (Key_down "Enter" (Responds res_too_low))) =
      (calls pending_42 ++ [c])%list /\
    request c = guess_request (JsNumber.Number (value (state pending_42))).
Proof.
  exact (enter_ignores_loading pending_42 (Responds res_too_low)
           eq_refl eq_refl eq_refl).
Defined.

Lemma dispatch_started (w : World) (e : Event) :
  started (state (dispatch w e)) = false -> started (state w) = false.
Proof.
  rewrite dispatch_step. destruct (started (state w)) eqn:Hs; [|reflexivity].
  destruct e as [s|key reply|reply|reply|reply]; cbn [negb andb];
    repeat match goal with
           | |- context [if ?c then _ else _] => destruct c
           end;
    rewrite ?step_started, ?Hs; cbn; congruence.
Qed.

(** X17: as long as no start has succeeded, the controls let nothing
    happen but starts: the cells are the initial ones (an error apart,
    which is not shown) and every request sent is the start. *)
Theorem nothing_before_start (events : list Event) :
  started (state (ui_run boot events)) = false ->
  value (state (ui_run boot events)) = EmptyString /\
  msg (state (ui_run boot events)) = EmptyString /\
  tries (state (ui_run boot events)) = 0%N /\
  finished (state (ui_run boot events)) = false /\
  loading (state (ui_run boot events)) = false /\
  Forall (fun c => request c = start_request) (calls (ui_run boot events)).
Proof.
  induction events as [|e events IH] using rev_ind.
  - intros _. repeat split. constructor.
  - rewrite ui_run_snoc. set (w := ui_run boot events) in *. intros H.
    pose proof (dispatch_started w e H) as Hs.
    destruct (IH Hs) as [Hv [Hm [Ht [Hf [Hl Hc]]]]].
    rewrite dispatch_step in *. rewrite Hs in *. cbn [negb andb] in *.
    destruct e as [s|key reply|reply|reply|reply];
      try (now repeat split).
    rewrite Hl in *. cbn [negb] in *.
    rewrite start_state in *. rewrite start_calls.
    destruct (succeeds reply); [discriminate|]. cbn.
    repeat split; auto.
    apply Forall_app. split; [exact Hc|]. now repeat constructor.
Qed.

Lemma nothing_before_start_witness :
  tries (state (ui_run boot
                  [Click_start_button (Responds res_session_expired);
                   Change "5"; Key_down "Enter" (Responds res_too_low);
                   Click_reset_button (Responds res_empty_object)])) = 0%N.
Proof.
  exact (proj1 (proj2 (proj2 (nothing_before_start
           [Click_start_button (Responds res_session_expired);
            Change "5"; Key_down "Enter" (Responds res_too_low);
            Click_reset_button (Responds res_empty_object)] eq_refl)))).
Defined.

(** X18: through the controls a start is only ever sent from a game that
    is not started, and a reset or a guess only from one that is. *)
Theorem requests_follow_started (events : list Event) :
  Forall (fun c => started (during c) = false <-> request c = start_request)
         (calls (ui_run boot events)).
Proof.
  induction events as [|e events IH] using rev_ind; [constructor|].
  rewrite ui_run_snoc. set (w := ui_run boot events) in *.
  rewrite dispatch_step.
  destruct e as [s|key reply|reply|reply|reply];
    match goal with
    | |- context [if ?c then _ else _] => destruct c eqn:Hc
    end; try exact IH.
  - apply andb_true_iff in Hc as [Hc Hb]. apply andb_true_iff in Hc as [Hs _].
    apply negb_true_iff in Hb.
    destruct (valid_input (value (state w))) eqn:Hv.
    + rewrite (guess_valid_calls w reply Hv).
      apply Forall_app. split; [exact IH|]. constructor; [|constructor].
      cbn [during request started]. rewrite Hs. split; discriminate.
    + now rewrite (guess_invalid w reply Hv).
  - apply andb_true_iff in Hc as [Hs _]. apply negb_true_iff in Hs.
    rewrite start_calls.
    apply Forall_app. split; [exact IH|]. constructor; [|constructor].
    cbn [during request started]. now rewrite Hs.
  - rewrite reset_calls.
    apply Forall_app. split; [exact IH|]. constructor; [|constructor].
    cbn [during request started]. rewrite Hc. split; discriminate.
  - apply andb_true_iff in Hc as [Hc Hb]. apply andb_true_iff in Hc as [Hs _].
    destruct (valid_input (value (state w))) eqn:Hv.
    + rewrite (guess_valid_calls w reply Hv).
      apply Forall_app. split; [exact IH|]. constructor; [|constructor].
      cbn [during request started]. rewrite Hs. split; discriminate.
    + now rewrite (guess_invalid w reply Hv).
Qed.

Lemma ui_run_is_run (events : list Event) : reachable (ui_run boot events).
Proof.
  induction events as [|e events [intents IH]] using rev_ind; [now exists []|].
  rewrite ui_run_snoc, IH, dispatch_step.
  destruct e as [s|key reply|reply|reply|reply];
    match goal with
    | |- context [if ?c then _ else _] => destruct c
    end;
    solve [now exists intents
          | eexists (intents ++ [_])%list; now rewrite run_snoc].
Qed.

(** ** The [api] object and the handlers *)

Lemma all_guessable_written_in_decimal :
  forallb written_in_decimal guessable = true.
Proof. vm_compute. reflexivity. Qed.

Lemma api_request_of_integer (k : N) :
  (k <= 1000)%N ->
  api_guess_request (JsNumber.of_Z (Z.of_N k)) = post_of k.
Proof.
  intros Hk.
  pose proof (proj1 (forallb_forall _ _) all_guessable_written_in_decimal k
                (in_guessable k Hk)) as H.
  apply String.eqb_eq in H.
  unfold api_guess_request, stringify_number_field, post_of, number_payload.
  now rewrite H.
Qed.

(** X19: the three calls of [api] resolve for exactly the replies the
    handlers of [App] take as a success, send one request each and touch
    no state cell; [api.guess] posts [JSON.stringify({ number: value })]
    for whatever number it is given, and for the integers from 0 to 1000
    that is the very request [submitGuess] sends. *)
Theorem api_agrees_with_handlers (w : World) (n : JsNumber.number) (reply : Reply) :
  ((exists j, fst (api_guess n reply w) = Return j) <-> succeeds reply = true) /\
  (fst (api_startGame reply w) = Return tt <-> succeeds reply = true) /\
  (fst (api_resetGame reply w) = Return tt <-> succeeds reply = true) /\
  snd (api_guess n reply w) =
    {| state := state w;
       calls := calls w ++ [{| request := api_guess_request n;
                               during := state w |}] |} /\
  snd (api_startGame reply w) =
    {| state := state w;
       calls := calls w ++ [{| request := start_request;
                               during := state w |}] |} /\
  snd (api_resetGame reply w) =
    {| state := state w;
       calls := calls w ++ [{| request := reset_request;
                               during := state w |}] |} /\
  (forall k : N,
      (k <= 1000)%N ->
      api_guess_request (JsNumber.of_Z (Z.of_N k)) = post_of k).
Proof.
  unfold api_guess, api_startGame, api_resetGame, fetch, bind, throw, ret,
    lift.
  destruct reply as [res|e].
  - rewrite succeeds_is_ok.
    destruct (Response_ok res); cbn [negb fst snd].
    + split; [split; [reflexivity|]|].
      { intros _.
        destruct (fst (try_catch (res_json res)
                         (fun _ => ret (JObject [])) false))
          as [j|e] eqn:E; [now exists j|].
        unfold try_catch, res_json, ret in E.
        destruct (body res) as [b|]; [destruct (json_of b)|]; discriminate. }
      repeat split. exact api_request_of_integer.
    + split; [split; [intros [j H]|]; discriminate|].
      repeat split; try discriminate. exact api_request_of_integer.
  - cbn. split; [split; [intros [j H]|]; discriminate|].
    repeat split; try discriminate. exact api_request_of_integer.
Qed.

Lemma api_agrees_with_handlers_witness :
  (exists j,
    fst (api_guess (JsNumber.of_Z 500) (Responds res_too_low) boot)
      = Return j) /\
  api_guess_request (JsNumber.of_Z (Z.of_N 500)) = post_of 500.
Proof.
  split.
  - exact (proj2 (proj1 (api_agrees_with_handlers boot (JsNumber.of_Z 500)
                           (Responds res_too_low))) eq_refl).
  - exact (proj2 (proj2 (proj2 (proj2 (proj2 (proj2
             (api_agrees_with_handlers boot (JsNumber.of_Z 500)
                (Responds res_too_low)))))))
             500%N ltac:(vm_compute; discriminate)).
Defined.

(** X20: [api.guess] resolves on every 2xx response, to the parsed body
    or to the empty object when there is no body or it does not parse;
    on any other response the three calls are rejected with their fixed
    text, whatever the body says. *)
Theorem api_outcomes (w : World) (n : JsNumber.number) (res : Response) :
  (Response_ok res = true ->
   fst (api_guess n (Responds res) w) =
     Return match body res with
            | Some b => match json_of b with
                        | Some j => j
                        | None => JObject []
                        end
            | None => JObject []
            end) /\
  (Response_ok res = false ->
   fst (api_guess n (Responds res) w) = Throw (Error "Guess failed") /\
   fst (api_startGame (Responds res) w) = Throw (Error "Failed to start") /\
   fst (api_resetGame (Responds res) w) = Throw (Error "Failed to reset")).
Proof.
  unfold api_guess, api_startGame, api_resetGame, fetch, bind, throw, ret,
    lift, try_catch, res_json.
  split; intros ->; cbn [negb fst snd]; [|now repeat split].
  destruct (body res) as [b|]; [destruct (json_of b)|]; reflexivity.
Qed.

Lemma api_outcomes_witness :
  fst (api_guess (JsNumber.of_Z 500) (Responds res_empty_json) boot) =
    Return (JObject []) /\
  fst (api_guess (JsNumber.of_Z 500) (Responds res_unparsable_error) boot) =
    Throw (Error "Guess failed").
Proof.
  split.
  - exact (proj1 (api_outcomes boot (JsNumber.of_Z 500) res_empty_json)
             eq_refl).
  - exact (proj1 (proj2 (api_outcomes boot (JsNumber.of_Z 500)
                           res_unparsable_error) eq_refl)).
Defined.

(** ** Counters *)

(** X21: a start that succeeds leaves the same cells whatever the state
    it was clicked in: nothing of an earlier session survives it. *)
Theorem successful_start_forgets (w1 w2 : World) (reply : Reply) :
  succeeds reply = true ->
  state (step w1 (Click_start reply)) = state (step w2 (Click_start reply)) /\
  state (step w1 (Click_start reply)) =
    {| started := true; value := EmptyString; error := EmptyString;
       msg := EmptyString; tries := 0; loading := false;
       finished := false |}.
Proof. intros H. now rewrite !start_state, H. Qed.

Lemma successful_start_forgets_witness :
  state (step won (Click_start (Responds res_empty_object))) =
    state (step boot (Click_start (Responds res_empty_object))).
Proof.
  exact (proj1 (successful_start_forgets won boot
                  (Responds res_empty_object) eq_refl)).
Defined.

Lemma step_tries (w : World) (i : Intent) :
  (tries (state (step w i)) <=
     tries (state w) + (if is_guess i then 1 else 0))%N.
Proof.
  destruct i as [s|reply|reply|reply]; cbn [is_guess].
  - cbn. lia.
  - rewrite start_state. destruct (succeeds reply); cbn; lia.
  - rewrite reset_state. destruct (succeeds reply); cbn; lia.
  - destruct (valid_input (value (state w))) eqn:Hv.
    + destruct (guess_state_cases w reply Hv) as [[_ [Ht _]]|[_ [Ht _]]];
        rewrite Ht; lia.
    + rewrite (guess_invalid w reply Hv). cbn. lia.
Qed.

(** X22: the count never runs ahead of the guesses: after a run it is at
    most what it was plus the number of guesses of the run. *)
Theorem tries_at_most_guesses (w : World) (intents : list Intent) :
  (tries (state (run w intents)) <=
     tries (state w) + N.of_nat (List.length (filter is_guess intents)))%N.
Proof.
  revert w. induction intents as [|i intents IH]; intros w; [cbn; lia|].
  rewrite run_cons. specialize (IH (step w i)).
  pose proof (step_tries w i) as Hs. cbn [filter].
  destruct (is_guess i); cbn [List.length] in *; lia.
Qed.

(** ** Handlers in turn *)

Lemma decimal_reads_back (n : N) :
  NilZero.uint_of_string (JsString.decimal n) = Some (N.to_uint n).
Proof.
  unfold JsString.decimal. apply NilZero.usu.
  destruct n as [|p]; [discriminate|].
  apply DecimalPos.Unsigned.to_uint_nonnil.
Qed.

(** X23: a guess handler that runs from its event to its end with no
    other handler in between, on an input that passes the checks and a
    response taken as a feedback, adds one to [tries], sets [finished]
    to whether the feedback is CORRECT, clears [error], and shows the
    label of the feedback (Too High, Too Low, Correct) followed by the
    new count written as its decimal numeral. *)
Theorem feedback_guess_in_turn (w : World) (res : Response) (fb : Feedback) :
  valid_input (value (state w)) = true ->
  interpret res = Return (Feedback_of fb) ->
  tries (state (step w (Submit_guess (Responds res)))) = (tries (state w) + 1)%N /\
  finished (state (step w (Submit_guess (Responds res)))) =
    match fb with CORRECT => true | _ => false end /\
  msg (state (step w (Submit_guess (Responds res)))) =
    labelFor fb ++ ". Total guess "
      ++ JsString.decimal (tries (state w) + 1) /\
  NilZero.uint_of_string (JsString.decimal (tries (state w) + 1)) =
    Some (N.to_uint (tries (state w) + 1)) /\
  error (state (step w (Submit_guess (Responds res)))) = EmptyString /\
  labelFor TOO_HIGH = "Too High" /\ labelFor TOO_LOW = "Too Low" /\
  labelFor CORRECT = "Correct".
Proof.
  intros Hv Hi. rewrite (guess_feedback w res fb Hv Hi). simp_cells.
  repeat split. apply decimal_reads_back.
Qed.

Lemma feedback_guess_in_turn_witness :
  tries (state (step typed_500 (Submit_guess (Responds res_too_low)))) = 1%N /\
  finished (state (step typed_500 (Submit_guess (Responds res_too_low)))) = false /\
  msg (state (step typed_500 (Submit_guess (Responds res_too_low)))) =
    "Too Low. Total guess 1".
Proof.
  destruct (feedback_guess_in_turn typed_500 res_too_low TOO_LOW
              eq_refl eq_refl) as [Ht [Hf [Hm _]]].
  split; [exact Ht|]. split; [exact Hf|exact Hm].
Defined.

(** X24: when the handlers run one after another, each to its end before
    the next begins, a session is finished only after a guess that
    passed the checks and was taken as the feedback CORRECT; a start or
    a reset that succeeds sets [finished] to false, one that fails leaves
    it as it was; and a guess adds one to [tries] exactly when it passed
    the checks and its reply was taken as a feedback or a message, and
    leaves [tries] as it was otherwise. *)
Theorem finished_and_tries_in_turn (w : World) (reply : Reply) :
  (forall intents,
      finished (state (run boot intents)) = true ->
      exists pre res post,
        intents = (pre ++ Submit_guess (Responds res) :: post)%list /\
        valid_input (value (state (run boot pre))) = true /\
        interpret res = Return (Feedback_of CORRECT)) /\
  finished (state (step w (Click_start reply))) =
    (if succeeds reply then false else finished (state w)) /\
  finished (state (step w (Click_reset reply))) =
    (if succeeds reply then false else finished (state w)) /\
  tries (state (step w (Submit_guess reply))) =
    (if valid_input (value (state w)) && classified reply
     then tries (state w) + 1 else tries (state w))%N.
Proof.
  split; [exact finished_origin|].
  split; [rewrite start_state; now destruct (succeeds reply)|].
  split; [rewrite reset_state; now destruct (succeeds reply)|].
  destruct (valid_input (value (state w))) eqn:Hv; cbn [andb].
  - destruct (guess_state_cases w reply Hv) as [[-> [Ht _]]|[-> [Ht _]]];
      exact Ht.
  - now rewrite (guess_invalid w reply Hv).
Qed.

Lemma finished_and_tries_in_turn_witness :
  exists pre res post,
    [Click_start (Responds res_empty_object); Type_value "375";
     Submit_guess (Responds res_correct)]
      = (pre ++ Submit_guess (Responds res) :: post)%list /\
    valid_input (value (state (run boot pre))) = true /\
    interpret res = Return (Feedback_of CORRECT).
Proof.
  exact (proj1 (finished_and_tries_in_turn boot (Rejects NotAnError))
           [Click_start (Responds res_empty_object); Type_value "375";
            Submit_guess (Responds res_correct)]
           eq_refl).
Defined.

(** ** Numbers written out *)

Example numbers_as_text :
  map (fun s => JsNumberText.toString (JsNumber.Number s))
      ["12.5"; "-5"; "0.1"; "1e21"; "1e20"; "1e-7"; "0.000001";
       "9007199254740993"; "5e-324"; "1.7976931348623157e308"; "-0"]
  = ["12.5"; "-5"; "0.1"; "1e+21"; "100000000000000000000"; "1e-7";
     "0.000001"; "9007199254740992"; "5e-324"; "1.7976931348623157e+308";
     "0"].
Proof. vm_compute. reflexivity. Qed.

Example numbers_in_json :
  map JsNumberText.stringify
      [JsNumber.NaN; S754_infinity false; S754_infinity true;
       JsNumber.Number "12.5"; JsNumber.Number "-5"]
  = ["null"; "null"; "null"; "12.5"; "-5"] /\
  payload (api_guess_request (JsNumber.Number "12.5")) =
    Some ("{" ++ JsString.quoted "number" ++ ":12.5}").
Proof. vm_compute. split; reflexivity. Qed.
